(** * Healthcare-Systems: the authentication and role-authorization pipeline

    A shallow embedding of the Express/Sequelize code of the repository:

    - [src/controllers/authController.js]  ([generateToken], [register], [login], [getProfile])
    - [src/middleware/auth.js]             ([authenticateToken])
    - [src/middleware/rbac.js]             ([requireRole] and its predefined gates)
    - [src/controllers/adminController.js] ([deleteUser])
    - [src/models/user.js]                 (validators, hooks, [validatePassword], [toJSON])

    The third-party libraries the code calls (jsonwebtoken, bcryptjs, the
    validator behind [isEmail], the database's integer parser) are taken as
    interfaces: records of operations, with their documented contracts as
    separate records of laws.  A small reference implementation of each
    interface is given at the end of the definitions, so that every law is
    shown to be satisfiable and every statement can be run on concrete data.

    Strings are byte strings ([String.string]); JavaScript numbers that the
    code handles are database identifiers and timestamps, modelled by [Z].

    The table behind the [User] model is the one the model definition
    describes (and [sequelize.sync] creates): integer keys from a sequence,
    unique [username] and [email], roles "admin", "patient", "doctor".  The
    migration file of the repository describes another table (UUID keys,
    roles "admin", "manager", "staff"); the controllers, which compare
    [parseInt(userId)] with [req.user.id], are written for the first.

    The ORM itself is modelled after Sequelize's life cycle of [create]
    (validators, then [beforeCreate], then INSERT), of [set] and [changed]
    (a key is recorded as changed when it is assigned a value other than its
    current one), and of [findOne], [findByPk] and [destroy]. *)

From Stdlib Require Import String Ascii List ZArith Bool Lia.
Import ListNotations.
Open Scope string_scope.
Open Scope Z_scope.

(* ===================================================================== *)
(** ** JavaScript primitives used by the controllers *)
(* ===================================================================== *)

Module JS.

(** A field of a JSON body, as the routes document it: a string, or absent
    ([undefined]). *)
Definition Field := option string.

(** [!v] is [negb (truthy v)]: [undefined] and the empty string are falsy. *)
Definition truthy (v : Field) : bool :=
  match v with
  | None => false
  | Some s => negb (s =? "")%string
  end.

(** [v || d] on a string field. *)
Definition or_default (v : Field) (d : string) : string :=
  match v with
  | Some s => if (s =? "")%string then d else s
  | None => d
  end.

(** White space skipped by [parseInt] (the ASCII part of it). *)
Definition is_ws (c : ascii) : bool :=
  let n := nat_of_ascii c in
  (Nat.eqb n 32 || Nat.eqb n 9 || Nat.eqb n 10 || Nat.eqb n 11 || Nat.eqb n 12
   || Nat.eqb n 13)%bool.

Fixpoint skip_ws (s : string) : string :=
  match s with
  | String c r => if is_ws c then skip_ws r else s
  | EmptyString => s
  end.

(** Value of a digit in radix up to 36. *)
Definition digit_val (c : ascii) : option Z :=
  let n := Z.of_nat (nat_of_ascii c) in
  if (48 <=? n) && (n <=? 57) then Some (n - 48)
  else if (97 <=? n) && (n <=? 122) then Some (n - 87)
  else if (65 <=? n) && (n <=? 90) then Some (n - 55)
  else None.

(** Longest prefix of digits of the radix; [None] when there is none. *)
Fixpoint digits (radix : Z) (acc : option Z) (s : string) : option Z :=
  match s with
  | String c r =>
      match digit_val c with
      | Some d =>
          if d <? radix
          then digits radix (Some (match acc with Some a => a | None => 0 end * radix + d)) r
          else acc
      | None => acc
      end
  | EmptyString => acc
  end.

(** [parseInt(s)] with no radix argument; [None] stands for [NaN].  The
    result is the mathematical integer: it is compared below with database
    identifiers only, all of them exactly representable numbers. *)
Definition parseInt (s : string) : option Z :=
  let s1 := skip_ws s in
  let '(neg, s2) :=
    match s1 with
    | String "-" r => (true, r)
    | String "+" r => (false, r)
    | _ => (false, s1)
    end in
  let '(radix, s3) :=
    match s2 with
    | String "0" (String "x" r) => (16, r)
    | String "0" (String "X" r) => (16, r)
    | _ => (10, s2)
    end in
  match digits radix None s3 with
  | Some v => Some (if neg then - v else v)
  | None => None
  end.

(** [parseInt(s) === n] for a number [n]: [NaN] equals nothing. *)
Definition parseInt_is (s : string) (n : Z) : bool :=
  match parseInt s with
  | Some v => v =? n
  | None => false
  end.

(** [s.split(sep)] for a one-character separator. *)
Fixpoint split (sep : ascii) (s : string) : list string :=
  match s with
  | EmptyString => [EmptyString]
  | String c r =>
      if Ascii.eqb c sep then EmptyString :: split sep r
      else match split sep r with
           | h :: t => String c h :: t
           | [] => [String c EmptyString]
           end
  end.

(** [a.includes(x)] on an array of strings. *)
Definition includes (a : list string) (x : string) : bool :=
  existsb (String.eqb x) a.

(** [a.join(sep)]. *)
Definition join (sep : string) (a : list string) : string :=
  String.concat sep a.

End JS.

(* ===================================================================== *)
(** ** Interfaces of the third-party libraries *)
(* ===================================================================== *)

(** *** bcryptjs *)

(** [bcrypt.hash(s, salt)] and the salt a stored hash carries.  The salt
    generator is random; its draws are an explicit input of the model. *)
Record BcryptLib := {
  Salt : Type;
  bcrypt_hash : string -> Salt -> string;
  bcrypt_getSalt : string -> option Salt
}.

(** [bcrypt.compare(s, hash)]: re-hash [s] under the salt embedded in [hash]
    and compare with [hash]; a string that carries no salt matches nothing. *)
Definition bcrypt_compare (B : BcryptLib) (s hash : string) : bool :=
  match bcrypt_getSalt B hash with
  | Some salt => (bcrypt_hash B s salt =? hash)%string
  | None => false
  end.

(** The first [n] bytes of a string. *)
Fixpoint take (n : nat) (s : string) : string :=
  match n, s with
  | S k, String c r => String c (take k r)
  | _, _ => EmptyString
  end.

(** The documented contract: a hash embeds its salt, and only the first 72
    bytes of the input enter the hash. *)
Record BcryptSpec (B : BcryptLib) : Prop := {
  getSalt_hash : forall s salt, bcrypt_getSalt B (bcrypt_hash B s salt) = Some salt;
  hash_72_bytes : forall s salt, bcrypt_hash B s salt = bcrypt_hash B (take 72 s) salt
}.

(** *** jsonwebtoken *)

(** The payload [generateToken] signs. *)
Record Payload := mkPayload {
  userId : Z;
  p_email : string;
  p_role : string
}.

(** A decoded token: the payload with the issued-at and expiry claims the
    library adds (seconds). *)
Record Claims := mkClaims {
  payload : Payload;
  iat : Z;
  exp : option Z
}.

(** The serialisation and signature primitives, and the time-span parser
    applied to [expiresIn] (seconds; [None] for a string it rejects). *)
Record JwtLib := {
  jwt_timespan : string -> option Z;
  jwt_encode : Claims -> string -> string;
  jwt_decode : string -> option Claims;
  jwt_sig_valid : string -> string -> bool
}.

Record JwtSpec (J : JwtLib) : Prop := {
  decode_encode : forall c key, jwt_decode J (jwt_encode J c key) = Some c;
  sig_valid_encode : forall c key, jwt_sig_valid J (jwt_encode J c key) key = true;
  timespan_7d : jwt_timespan J "7d" = Some 604800
}.

(* ===================================================================== *)
(** ** Errors, responses, requests *)
(* ===================================================================== *)

(** One item of [error.errors]. *)
Record ErrorItem := mkItem {
  message : string;
  path : string
}.

(** A thrown JavaScript error, as the handlers look at it: by [name]. *)
Record Exn := mkExn {
  name : string;
  errors : list ErrorItem
}.

Definition PlainError : Exn := mkExn "Error" [].
Definition TypeError : Exn := mkExn "TypeError" [].
Definition JsonWebTokenError : Exn := mkExn "JsonWebTokenError" [].
Definition TokenExpiredError : Exn := mkExn "TokenExpiredError" [].
Definition SequelizeDatabaseError : Exn := mkExn "SequelizeDatabaseError" [].
Definition SequelizeValidationError (items : list ErrorItem) : Exn :=
  mkExn "SequelizeValidationError" items.
Definition SequelizeUniqueConstraintError (items : list ErrorItem) : Exn :=
  mkExn "SequelizeUniqueConstraintError" items.

Inductive Res (A : Type) : Type :=
| Ok (a : A)
| Throw (e : Exn).
Arguments Ok {A} a.
Arguments Throw {A} e.

(** What [toJSON()] leaves of a user (the two timestamps, which no handler
    reads, are left out). *)
Record PublicUser := mkPublic {
  pub_id : Z;
  pub_username : string;
  pub_email : string;
  pub_role : string
}.

Inductive Data :=
| DataUserToken (u : PublicUser) (token : string)
| DataUser (u : PublicUser).

(** The JSON answer of a handler: status and the fields of its body. *)
Record Response := mkResponse {
  status : Z;
  success : bool;
  res_message : option string;
  res_errors : option (list string);
  res_data : option Data
}.

(** [res.status(code).json({ success: false, message })]. *)
Definition failure (code : Z) (m : string) : Response :=
  mkResponse code false (Some m) None None.

(* ===================================================================== *)
(** ** The User model (src/models/user.js) and the store behind it *)
(* ===================================================================== *)

(** The four declared attributes. *)
Record Attrs := mkAttrs {
  username : string;
  email : string;
  password : string;
  role : string
}.

(** A persisted row, or an instance loaded from one.  The model declares no
    primary key, so the identifier is the ORM's default: an auto-incremented
    integer. *)
Record User := mkUser {
  id : Z;
  attrs : Attrs
}.

(** An instance on its way to the store: the values about to be written and
    the keys assigned since it was built or loaded. *)
Record Instance := mkInstance {
  dataValues : Attrs;
  changedKeys : list string
}.

(** [user.changed(key)]. *)
Definition changed (key : string) (inst : Instance) : bool :=
  JS.includes (changedKeys inst) key.

(** [user.password = v] on an instance: the key is recorded as changed when
    the value differs from the current one. *)
Definition set_password (v : string) (inst : Instance) : Instance :=
  let a := dataValues inst in
  if (v =? password a)%string then inst
  else mkInstance (mkAttrs (username a) (email a) v (role a))
                  ("password" :: changedKeys inst).

Definition set_username (v : string) (inst : Instance) : Instance :=
  let a := dataValues inst in
  if (v =? username a)%string then inst
  else mkInstance (mkAttrs v (email a) (password a) (role a))
                  ("username" :: changedKeys inst).

Definition set_email (v : string) (inst : Instance) : Instance :=
  let a := dataValues inst in
  if (v =? email a)%string then inst
  else mkInstance (mkAttrs (username a) v (password a) (role a))
                  ("email" :: changedKeys inst).

Definition set_role (v : string) (inst : Instance) : Instance :=
  let a := dataValues inst in
  if (v =? role a)%string then inst
  else mkInstance (mkAttrs (username a) (email a) (password a) v)
                  ("role" :: changedKeys inst).

(** An instance as [findByPk] or [findOne] returns it: nothing changed yet. *)
Definition loaded (u : User) : Instance := mkInstance (attrs u) [].

(** The values of [instance.set(values)]: one optional new value per key. *)
Record Changes := mkChanges {
  new_username : option string;
  new_email : option string;
  new_password : option string;
  new_role : option string
}.

Definition apply_opt {A : Type} (f : string -> A -> A) (v : option string) (x : A) : A :=
  match v with
  | Some s => f s x
  | None => x
  end.

Definition set_all (c : Changes) (inst : Instance) : Instance :=
  apply_opt set_role (new_role c)
    (apply_opt set_password (new_password c)
       (apply_opt set_email (new_email c)
          (apply_opt set_username (new_username c) inst))).

(** [toJSON()]: every value but the password. *)
Definition toJSON (u : User) : PublicUser :=
  mkPublic (id u) (username (attrs u)) (email (attrs u)) (role (attrs u)).

(** A primary key as the callers pass it: the number of a decoded token, or
    the string of a route parameter. *)
Inductive Pk :=
| PkNum (n : Z)
| PkStr (s : string).

(** The calls that reach the ORM, in order. *)
Inductive OrmCall :=
| CallCreate
| CallFindOne (e : string)
| CallFindByPk (k : Pk)
| CallDestroy (n : Z).

(** Everything a request can read or change: the table, its identifier
    sequence, the number of salts drawn so far, and the trace of ORM calls. *)
Record World := mkWorld {
  db : list User;
  next_id : Z;
  draws : nat;
  log : list OrmCall
}.

(** Computations of the handlers: they read and change the world and either
    return or throw; what was changed before a throw stays changed. *)
Definition M (A : Type) : Type := World -> Res A * World.

Definition ret {A : Type} (a : A) : M A := fun w => (Ok a, w).

Definition throw {A : Type} (e : Exn) : M A := fun w => (Throw e, w).

Definition bind {A B : Type} (m : M A) (k : A -> M B) : M B :=
  fun w =>
    match m w with
    | (Ok a, w') => k a w'
    | (Throw e, w') => (Throw e, w')
    end.

(** [try { m } catch (error) { h error }]. *)
Definition try_catch {A : Type} (m : M A) (h : Exn -> M A) : M A :=
  fun w =>
    match m w with
    | (Ok a, w') => (Ok a, w')
    | (Throw e, w') => h e w'
    end.

(** A synchronous call that may throw. *)
Definition lift {A : Type} (r : Res A) : M A := fun w => (r, w).

Declare Scope js_scope.
Delimit Scope js_scope with js.
Notation "x <- m ;; k" := (bind m (fun x => k))
  (at level 61, m at next level, right associativity) : js_scope.
Notation "m ;;; k" := (bind m (fun _ => k))
  (at level 61, right associativity) : js_scope.
Open Scope js_scope.

Definition record_call (c : OrmCall) : M unit :=
  fun w => (Ok tt, mkWorld (db w) (next_id w) (draws w) (log w ++ [c])).

(** The environment variables the code reads. *)
Record Env := mkEnv {
  JWT_SECRET : option string;
  JWT_EXPIRES_IN : option string
}.

Record Body := mkBody {
  b_username : JS.Field;
  b_email : JS.Field;
  b_password : JS.Field;
  b_role : JS.Field
}.

Record Request := mkRequest {
  authorization : option string;
  body : Body;
  params_userId : string;
  user : option User
}.

(** What a middleware does with a request: answer, or hand it on. *)
Inductive Step :=
| Respond (r : Response)
| Next (req : Request).

(* ===================================================================== *)
(** ** The code *)
(* ===================================================================== *)

Section Pipeline.

Variable B : BcryptLib.
Variable J : JwtLib.

(** The validator behind [isEmail] of the model definition. *)
Variable isEmail : string -> bool.

(** The database's reading of a string as an integer key ([None]: the
    query fails with an input-syntax or range error). *)
Variable pg_int : string -> option Z.

(** The salts [bcrypt.genSalt] returns, by number of the draw. *)
Variable entropy : nat -> Salt B.

(* ------------------------------------------------------------------- *)
(** *** jsonwebtoken: [sign] and [verify] over the primitives *)

(** [jwt.sign(payload, secret, { expiresIn })] at time [now]; the library
    throws a plain [Error] when the secret is missing or the time span is
    not one it understands. *)
Definition jwt_sign (p : Payload) (secret : option string) (expiresIn : string)
    (now : Z) : Res string :=
  if JS.truthy secret then
    match jwt_timespan J expiresIn with
    | Some life =>
        Ok (jwt_encode J (mkClaims p now (Some (now + life))) (JS.or_default secret ""))
    | None => Throw PlainError
    end
  else Throw PlainError.

(** [jwt.verify(token, secret)] at time [now], in the order the library
    checks: the token must parse, the secret must be there, the signature
    must match, and the expiry must lie ahead. *)
Definition jwt_verify (token : string) (secret : option string) (now : Z) : Res Claims :=
  match jwt_decode J token with
  | None => Throw JsonWebTokenError
  | Some c =>
      if JS.truthy secret then
        if jwt_sig_valid J token (JS.or_default secret "") then
          match exp c with
          | Some e => if e <=? now then Throw TokenExpiredError else Ok c
          | None => Ok c
          end
        else Throw JsonWebTokenError
      else Throw JsonWebTokenError
  end.

(* ------------------------------------------------------------------- *)
(** *** src/models/user.js *)

Definition len_between (lo hi : nat) (s : string) : bool :=
  (Nat.leb lo (String.length s) && Nat.leb (String.length s) hi)%bool.

Definition check (ok : bool) (m p : string) : list ErrorItem :=
  if ok then [] else [mkItem m p].

(** The [validate] entries of the four attributes, in declaration order. *)
Definition validate (a : Attrs) : list ErrorItem :=
  check (len_between 3 50 (username a))
        "Username must be between 3 and 50 characters" "username"
  ++ check (isEmail (email a)) "Must be a valid email address" "email"
  ++ check (len_between 6 100 (password a))
        "Password must be at least 6 characters long" "password"
  ++ check (JS.includes ["admin"; "patient"; "doctor"] (role a))
        "Role must be admin, patient, or doctor" "role".

(** [bcrypt.genSalt(10)]: the next draw. *)
Definition genSalt : M (Salt B) :=
  fun w => (Ok (entropy (draws w)), mkWorld (db w) (next_id w) (S (draws w)) (log w)).

Definition with_password (inst : Instance) (h : string) : Instance :=
  let a := dataValues inst in
  mkInstance (mkAttrs (username a) (email a) h (role a)) (changedKeys inst).

(** Hook [beforeCreate]. *)
Definition beforeCreate (inst : Instance) : M Instance :=
  if JS.truthy (Some (password (dataValues inst))) then
    salt <- genSalt ;;
    ret (with_password inst (bcrypt_hash B (password (dataValues inst)) salt))
  else ret inst.

(** Hook [beforeUpdate]. *)
Definition beforeUpdate (inst : Instance) : M Instance :=
  if changed "password" inst then
    salt <- genSalt ;;
    ret (with_password inst (bcrypt_hash B (password (dataValues inst)) salt))
  else ret inst.

(** [user.validatePassword(password)]. *)
Definition validatePassword (u : User) (pw : string) : bool :=
  bcrypt_compare B pw (password (attrs u)).

(* ------------------------------------------------------------------- *)
(** *** The ORM calls the controllers make *)

Definition username_taken (n : string) (rows : list User) : bool :=
  existsb (fun u => (username (attrs u) =? n)%string) rows.

Definition email_taken (e : string) (rows : list User) : bool :=
  existsb (fun u => (email (attrs u) =? e)%string) rows.

(** The INSERT: a value of the sequence is taken, then the two unique
    indexes are checked, [username] before [email]. *)
Definition insert (a : Attrs) : M User :=
  fun w =>
    let n := next_id w in
    let w1 := mkWorld (db w) (n + 1) (draws w) (log w) in
    if username_taken (username a) (db w) then
      (Throw (SequelizeUniqueConstraintError
                [mkItem "Username already exists" "username"]), w1)
    else if email_taken (email a) (db w) then
      (Throw (SequelizeUniqueConstraintError
                [mkItem "Email already exists" "email"]), w1)
    else
      (Ok (mkUser n a), mkWorld (db w ++ [mkUser n a]) (n + 1) (draws w) (log w)).

(** [User.create(values)]: validate, run [beforeCreate], insert. *)
Definition User_create (a : Attrs) : M User :=
  record_call CallCreate ;;;
  match validate a with
  | [] =>
      inst <- beforeCreate
                (mkInstance a ["username"; "email"; "password"; "role"]) ;;
      insert (dataValues inst)
  | items => throw (SequelizeValidationError items)
  end.

(** [User.findOne({ where: { email } })]. *)
Definition User_findOne (e : string) : M (option User) :=
  record_call (CallFindOne e) ;;;
  fun w => (Ok (find (fun u => (email (attrs u) =? e)%string) (db w)), w).

Definition find_id (n : Z) (rows : list User) : option User :=
  find (fun u => id u =? n) rows.

(** [User.findByPk(key)]. *)
Definition User_findByPk (k : Pk) : M (option User) :=
  record_call (CallFindByPk k) ;;;
  fun w =>
    match k with
    | PkNum n => (Ok (find_id n (db w)), w)
    | PkStr s =>
        match pg_int s with
        | Some n => (Ok (find_id n (db w)), w)
        | None => (Throw SequelizeDatabaseError, w)
        end
    end.

(** [user.destroy()]. *)
Definition destroy (u : User) : M unit :=
  record_call (CallDestroy (id u)) ;;;
  fun w =>
    (Ok tt, mkWorld (filter (fun r => negb (id r =? id u)) (db w))
                    (next_id w) (draws w) (log w)).

(* ------------------------------------------------------------------- *)
(** *** src/controllers/authController.js *)

Definition generateToken (env : Env) (now : Z) (u : User) : Res string :=
  jwt_sign (mkPayload (id u) (email (attrs u)) (role (attrs u)))
           (JWT_SECRET env)
           (JS.or_default (JWT_EXPIRES_IN env) "7d")
           now.

Definition internal_error : Response := failure 500 "Internal server error".

(** The object [register] hands to [User.create]: the three fields it
    has found truthy, and [role || "patient"]. *)
Definition registration (b : Body) : Attrs :=
  mkAttrs (JS.or_default (b_username b) "")
          (JS.or_default (b_email b) "")
          (JS.or_default (b_password b) "")
          (JS.or_default (b_role b) "patient").

Definition register (env : Env) (now : Z) (req : Request) : M Response :=
  try_catch
    (let b := body req in
     if (negb (JS.truthy (b_username b)) || negb (JS.truthy (b_email b))
         || negb (JS.truthy (b_password b)))%bool
     then ret (failure 400 "Username, email, and password are required")
     else
       u <- User_create (registration b) ;;
       token <- lift (generateToken env now u) ;;
       ret (mkResponse 201 true (Some "User registered successfully") None
              (Some (DataUserToken (toJSON u) token))))
    (fun error =>
       if (name error =? "SequelizeValidationError")%string then
         ret (mkResponse 400 false (Some "Validation failed")
                (Some (map message (errors error))) None)
       else if (name error =? "SequelizeUniqueConstraintError")%string then
         match errors error with
         | item :: _ => ret (failure 400 (path item ++ " already exists"))
         | [] => throw TypeError
         end
       else ret internal_error).

Definition invalid_credentials : Response := failure 401 "Invalid email or password".

Definition login (env : Env) (now : Z) (req : Request) : M Response :=
  try_catch
    (let b := body req in
     if (negb (JS.truthy (b_email b)) || negb (JS.truthy (b_password b)))%bool
     then ret (failure 400 "Email and password are required")
     else
       found <- User_findOne (JS.or_default (b_email b) "") ;;
       match found with
       | None => ret invalid_credentials
       | Some u =>
           if negb (validatePassword u (JS.or_default (b_password b) ""))
           then ret invalid_credentials
           else
             token <- lift (generateToken env now u) ;;
             ret (mkResponse 200 true (Some "Login successful") None
                    (Some (DataUserToken (toJSON u) token)))
       end)
    (fun _ => ret internal_error).

Definition getProfile (req : Request) : M Response :=
  try_catch
    (match user req with
     | Some u => ret (mkResponse 200 true None None (Some (DataUser (toJSON u))))
     | None => throw TypeError
     end)
    (fun _ => ret internal_error).

(* ------------------------------------------------------------------- *)
(** *** src/middleware/auth.js *)

(** [authHeader && authHeader.split(" ")[1]]. *)
Definition bearer (authHeader : option string) : JS.Field :=
  match authHeader with
  | None => None
  | Some h => if JS.truthy (Some h) then nth_error (JS.split " " h) 1 else Some h
  end.

Definition with_user (req : Request) (u : User) : Request :=
  mkRequest (authorization req) (body req) (params_userId req) (Some u).

Definition authenticateToken (env : Env) (now : Z) (req : Request) : M Step :=
  try_catch
    (let token := bearer (authorization req) in
     if negb (JS.truthy token)
     then ret (Respond (failure 401 "Access token required"))
     else
       decoded <- lift (jwt_verify (JS.or_default token "") (JWT_SECRET env) now) ;;
       found <- User_findByPk (PkNum (userId (payload decoded))) ;;
       match found with
       | None => ret (Respond (failure 401 "Invalid token - user not found"))
       | Some u => ret (Next (with_user req u))
       end)
    (fun error =>
       if (name error =? "JsonWebTokenError")%string then
         ret (Respond (failure 401 "Invalid token"))
       else if (name error =? "TokenExpiredError")%string then
         ret (Respond (failure 401 "Token expired"))
       else ret (Respond (failure 500 "Authentication error"))).

(* ------------------------------------------------------------------- *)
(** *** src/middleware/rbac.js *)

Definition requireRole (allowedRoles : list string) (req : Request) : Step :=
  match user req with
  | None => Respond (failure 401 "Authentication required")
  | Some u =>
      if negb (JS.includes allowedRoles (role (attrs u)))
      then Respond (failure 403 ("Access denied. Required role: "
                                   ++ JS.join " or " allowedRoles))
      else Next req
  end.

Definition requireAdmin := requireRole ["admin"].
Definition requireDoctor := requireRole ["admin"; "doctor"].
Definition requirePatient := requireRole ["admin"; "patient"; "doctor"].

(* ------------------------------------------------------------------- *)
(** *** src/controllers/adminController.js *)

Definition deleteUser (req : Request) : M Response :=
  try_catch
    (let userId := params_userId req in
     me <- match user req with
           | Some u => ret u
           | None => throw TypeError
           end ;;
     if JS.parseInt_is userId (id me)
     then ret (failure 400 "Cannot delete your own account")
     else
       found <- User_findByPk (PkStr userId) ;;
       match found with
       | None => ret (failure 404 "User not found")
       | Some u =>
           destroy u ;;;
           ret (mkResponse 200 true (Some "User deleted successfully") None None)
       end)
    (fun _ => ret internal_error).

(* ------------------------------------------------------------------- *)
(** *** src/routes/adminRoutes.js *)

(** [router.use(authenticateToken); router.use(gate)] in front of a
    handler: the gate sees the request the first middleware handed on. *)
Definition guarded (gate : Request -> Step) (env : Env) (now : Z) (req : Request)
    : M Step :=
  s <- authenticateToken env now req ;;
  match s with
  | Respond r => ret (Respond r)
  | Next req' => ret (gate req')
  end.

End Pipeline.

(* ===================================================================== *)
(** ** More of the code: the routes and the other admin handlers *)
(* ===================================================================== *)

(** The [data] of the admin answers modelled here. *)
Inductive AdminData :=
| Statistics (totalUsers adminCount doctorCount patientCount : Z)
| Created (u : PublicUser).

Record AdminResponse := mkAdminResponse {
  a_status : Z;
  a_success : bool;
  a_message : option string;
  a_data : option AdminData
}.

Definition admin_failure (code : Z) (m : string) : AdminResponse :=
  mkAdminResponse code false (Some m) None.

(** [User.count({ where: { role } })], or [User.count()] with no filter.
    Reads of this kind are not entered in the trace. *)
Definition User_count (where_role : option string) : M Z :=
  fun w =>
    (Ok (Z.of_nat
           (List.length
              (filter (fun u => match where_role with
                                | Some r => (role (attrs u) =? r)%string
                                | None => true
                                end)
                      (db w)))),
     w).

(** [getDashboard] of src/controllers/adminController.js. *)
Definition getDashboard (req : Request) : M AdminResponse :=
  try_catch
    (totalUsers <- User_count None ;;
     adminCount <- User_count (Some "admin") ;;
     doctorCount <- User_count (Some "doctor") ;;
     patientCount <- User_count (Some "patient") ;;
     ret (mkAdminResponse 200 true (Some "Dashboard data retrieved successfully")
            (Some (Statistics totalUsers adminCount doctorCount patientCount))))
    (fun _ => ret (admin_failure 500 "Internal server error")).

Section Routes.

Variable B : BcryptLib.
Variable J : JwtLib.
Variable isEmail : string -> bool.
Variable pg_int : string -> option Z.
Variable entropy : nat -> Salt B.

(** The items of a value that is missing ([allowNull: false]) or, when it is
    there, of its validator. *)
Definition field_items (v : JS.Field) (key : string) (items : string -> list ErrorItem)
    : list ErrorItem :=
  match v with
  | Some s => items s
  | None => [mkItem ("User." ++ key ++ " cannot be null") key]
  end.

(** [User.create({ username, email, password, role })] when the three
    fields come straight from the body and may be absent: an absent field is
    a validation error of its own, next to those of the fields present. *)
Definition User_create_fields (u e p : JS.Field) (r : string) : M User :=
  match u, e, p with
  | Some u', Some e', Some p' => User_create B isEmail entropy (mkAttrs u' e' p' r)
  | _, _, _ =>
      record_call CallCreate ;;;
      throw (SequelizeValidationError
               (field_items u "username"
                  (fun s => check (len_between 3 50 s)
                              "Username must be between 3 and 50 characters" "username")
                ++ field_items e "email"
                     (fun s => check (isEmail s) "Must be a valid email address" "email")
                ++ field_items p "password"
                     (fun s => check (len_between 6 100 s)
                                 "Password must be at least 6 characters long" "password")
                ++ check (JS.includes ["admin"; "patient"; "doctor"] r)
                     "Role must be admin, patient, or doctor" "role"))
  end.

(** [createUser] of src/controllers/adminController.js. *)
Definition createUser (req : Request) : M AdminResponse :=
  try_catch
    (let b := body req in
     match b_role b with
     | Some r =>
         if negb (JS.includes ["doctor"; "patient"] r)
         then ret (admin_failure 400 "Role must be either doctor or patient")
         else
           newUser <- User_create_fields (b_username b) (b_email b) (b_password b) r ;;
           ret (mkAdminResponse 201 true (Some "User created successfully")
                  (Some (Created (toJSON newUser))))
     | None => ret (admin_failure 400 "Role must be either doctor or patient")
     end)
    (fun _ => ret (admin_failure 500 "Internal server error")).

(** A handler behind middleware: it runs on the request handed on, unless
    the middleware has answered. *)
Definition handle (s : Step) (h : Request -> M Response) : M Response :=
  match s with
  | Respond r => ret r
  | Next req' => h req'
  end.

(** [router.delete("/users/:userId", deleteUser)] of src/routes/adminRoutes.js,
    behind [router.use(authenticateToken)] and [router.use(requireAdmin)]. *)
Definition delete_user_route (env : Env) (now : Z) (req : Request) : M Response :=
  s <- guarded J pg_int requireAdmin env now req ;;
  handle s (deleteUser pg_int).

(** [router.get("/profile", authenticateToken, getProfile)] of
    src/routes/authRoutes.js. *)
Definition profile_route (env : Env) (now : Z) (req : Request) : M Response :=
  s <- authenticateToken J pg_int env now req ;;
  handle s getProfile.

End Routes.

(* ===================================================================== *)
(** ** Vocabulary of the statements *)
(* ===================================================================== *)

(** A token that parses and carries the signature of the configured secret. *)
Definition well_signed (J : JwtLib) (token : string) (secret : option string) : bool :=
  match jwt_decode J token with
  | Some _ => (JS.truthy secret && jwt_sig_valid J token (JS.or_default secret ""))%bool
  | None => false
  end.

(** A token whose expiry claim is not after [now]. *)
Definition past_expiry (J : JwtLib) (token : string) (now : Z) : bool :=
  match jwt_decode J token with
  | Some c =>
      match exp c with
      | Some e => e <=? now
      | None => false
      end
  | None => false
  end.

(** The 403 answer of a gate. *)
Definition denied (allowedRoles : list string) : Response :=
  failure 403 ("Access denied. Required role: " ++ JS.join " or " allowedRoles).

(** The world after one more salt was drawn. *)
Definition drew (w : World) : World :=
  mkWorld (db w) (next_id w) (S (draws w)) (log w).

(** An update changes the password when it assigns a value other than the
    stored one. *)
Definition password_changes (c : Changes) (u : User) : bool :=
  match new_password c with
  | Some v => negb (v =? password (attrs u))%string
  | None => false
  end.

(** The password value an update leaves on the instance. *)
Definition requested_password (c : Changes) (u : User) : string :=
  match new_password c with
  | Some v => v
  | None => password (attrs u)
  end.

(** The attributes with the password replaced by its hash. *)
Definition stored (a : Attrs) (h : string) : Attrs :=
  mkAttrs (username a) (email a) h (role a).

Fixpoint replicate (n : nat) (c : ascii) : string :=
  match n with
  | O => EmptyString
  | S k => String c (replicate k c)
  end.

(** Two passwords of 73 bytes that differ in the last one only. *)
Definition long_b : string := replicate 72 "a" ++ "b".
Definition long_c : string := replicate 72 "a" ++ "c".

(** A string with no space in it. *)
Fixpoint no_space (s : string) : bool :=
  match s with
  | String c r => (negb (Ascii.eqb c " ") && no_space r)%bool
  | EmptyString => true
  end.

(** The roles the model definition allows. *)
Definition role_ok (r : string) : bool :=
  JS.includes ["admin"; "patient"; "doctor"] r.

(** What the store and the model promise of the table: keys are distinct and
    below the next value of the sequence, usernames and emails are distinct,
    and every role is one of the three. *)
Record table_ok (w : World) : Prop := {
  ids_unique : NoDup (map id (db w));
  ids_below : Forall (fun u => id u < next_id w) (db w);
  usernames_unique : NoDup (map (fun u => username (attrs u)) (db w));
  emails_unique : NoDup (map (fun u => email (attrs u)) (db w));
  roles_valid : Forall (fun u => role_ok (role (attrs u)) = true) (db w)
}.

(** The world after the one lookup [deleteUser] makes. *)
Definition looked_up (req : Request) (w : World) : World :=
  mkWorld (db w) (next_id w) (draws w)
          (log w ++ [CallFindByPk (PkStr (params_userId req))]).

(** The number of rows with a given role. *)
Definition count_role (r : string) (rows : list User) : Z :=
  Z.of_nat (List.length (filter (fun u => (role (attrs u) =? r)%string) rows)).

(** The values [createUser] hands to [User.create], when the three fields
    are all there. *)
Definition creation (b : Body) (r : string) : option Attrs :=
  match b_username b, b_email b, b_password b with
  | Some u, Some e, Some p => Some (mkAttrs u e p r)
  | _, _, _ => None
  end.

(** The creation cannot go through: a field is absent, a validator rejects a
    value, or the username or the email is in the table already. *)
Definition creation_fails (isEmail : string -> bool) (b : Body) (r : string)
    (rows : list User) : bool :=
  match creation b r with
  | Some a =>
      (match validate isEmail a with [] => false | _ => true end
       || username_taken (username a) rows || email_taken (email a) rows)%bool
  | None => true
  end.

(** Every password in the table is a hash the library made. *)
Definition passwords_hashed (B : BcryptLib) (w : World) : Prop :=
  Forall (fun u => exists p salt, password (attrs u) = bcrypt_hash B p salt) (db w).

(** A request with another [Authorization] header. *)
Definition with_header (req : Request) (h : string) : Request :=
  mkRequest (Some h) (body req) (params_userId req) (user req).

(* ===================================================================== *)
(** ** A reference implementation of the library interfaces *)
(* ===================================================================== *)

(** Small, computable stand-ins for the libraries: a self-delimiting
    serialisation for tokens, with the signing key as the tag, and a hash
    that keeps its salt in front of the 72 bytes it read.  They are used to
    show the contracts above satisfiable and to run the handlers. *)
Module Ref.

Fixpoint enc_pos (p : positive) : string :=
  match p with
  | xH => "."
  | xO q => String "0" (enc_pos q)
  | xI q => String "1" (enc_pos q)
  end.

Fixpoint dec_pos (s : string) : option (positive * string) :=
  match s with
  | String c r =>
      if Ascii.eqb c "." then Some (xH, r)
      else if Ascii.eqb c "0" then
        match dec_pos r with Some (p, r') => Some (xO p, r') | None => None end
      else if Ascii.eqb c "1" then
        match dec_pos r with Some (p, r') => Some (xI p, r') | None => None end
      else None
  | EmptyString => None
  end.

Definition enc_Z (z : Z) : string :=
  match z with
  | Z0 => "z"
  | Zpos p => String "p" (enc_pos p)
  | Zneg p => String "n" (enc_pos p)
  end.

Definition dec_Z (s : string) : option (Z * string) :=
  match s with
  | String c r =>
      if Ascii.eqb c "z" then Some (0, r)
      else if Ascii.eqb c "p" then
        match dec_pos r with Some (p, r') => Some (Zpos p, r') | None => None end
      else if Ascii.eqb c "n" then
        match dec_pos r with Some (p, r') => Some (Zneg p, r') | None => None end
      else None
  | EmptyString => None
  end.

Fixpoint enc_str (s : string) : string :=
  match s with
  | String c r => String ":" (String c (enc_str r))
  | EmptyString => ";"
  end.

Fixpoint dec_str (s : string) : option (string * string) :=
  match s with
  | String k (String c r as r0) =>
      if Ascii.eqb k ":" then
        match dec_str r with Some (x, r') => Some (String c x, r') | None => None end
      else if Ascii.eqb k ";" then Some (EmptyString, r0)
      else None
  | String k EmptyString => if Ascii.eqb k ";" then Some (EmptyString, EmptyString) else None
  | EmptyString => None
  end.

Definition enc_opt (o : option Z) : string :=
  match o with
  | Some z => String "S" (enc_Z z)
  | None => "N"
  end.

Definition dec_opt (s : string) : option (option Z * string) :=
  match s with
  | String c r =>
      if Ascii.eqb c "S" then
        match dec_Z r with Some (z, r') => Some (Some z, r') | None => None end
      else if Ascii.eqb c "N" then Some (None, r)
      else None
  | EmptyString => None
  end.

Definition enc_claims (c : Claims) : string :=
  enc_Z (userId (payload c)) ++ enc_str (p_email (payload c))
  ++ enc_str (p_role (payload c)) ++ enc_Z (iat c) ++ enc_opt (exp c).

Definition dec_claims (s : string) : option (Claims * string) :=
  match dec_Z s with
  | Some (uid, s1) =>
      match dec_str s1 with
      | Some (e, s2) =>
          match dec_str s2 with
          | Some (r, s3) =>
              match dec_Z s3 with
              | Some (i, s4) =>
                  match dec_opt s4 with
                  | Some (x, s5) => Some (mkClaims (mkPayload uid e r) i x, s5)
                  | None => None
                  end
              | None => None
              end
          | None => None
          end
      | None => None
      end
  | None => None
  end.

(** A token: the claims, then the tag. *)
Definition encode (c : Claims) (key : string) : string :=
  enc_claims c ++ enc_str key.

Definition parse (token : string) : option (Claims * string) :=
  match dec_claims token with
  | Some (c, r) =>
      match dec_str r with
      | Some (tag, EmptyString) => Some (c, tag)
      | _ => None
      end
  | None => None
  end.

Definition decode (token : string) : option Claims :=
  match parse token with
  | Some (c, _) => Some c
  | None => None
  end.

Definition sig_valid (token key : string) : bool :=
  match parse token with
  | Some (_, tag) => (tag =? key)%string
  | None => false
  end.

Definition timespan (s : string) : option Z :=
  if (s =? "7d")%string then Some 604800
  else if (s =? "1h")%string then Some 3600
  else if (s =? "0")%string then Some 0
  else None.

Definition jwt : JwtLib :=
  {| jwt_timespan := timespan;
     jwt_encode := encode;
     jwt_decode := decode;
     jwt_sig_valid := sig_valid |}.

Definition hash (s : string) (salt : positive) : string :=
  enc_pos salt ++ take 72 s.

Definition getSalt (h : string) : option positive :=
  match dec_pos h with
  | Some (p, _) => Some p
  | None => None
  end.

Definition bcrypt : BcryptLib :=
  {| Salt := positive;
     bcrypt_hash := hash;
     bcrypt_getSalt := getSalt |}.

Fixpoint has_at (s : string) : bool :=
  match s with
  | String c r => (Ascii.eqb c "@" || has_at r)%bool
  | EmptyString => false
  end.

Definition isEmail (s : string) : bool := has_at s.

Fixpoint all_digits (s : string) : bool :=
  match s with
  | String c r =>
      match JS.digit_val c with
      | Some d => ((d <? 10) && all_digits r)%bool
      | None => false
      end
  | EmptyString => true
  end.

Definition pg_int (s : string) : option Z :=
  if all_digits s then JS.digits 10 None s else None.

Definition entropy (n : nat) : Salt bcrypt := Pos.of_succ_nat n.

(** The handlers over the reference libraries. *)
Definition register := register bcrypt jwt isEmail entropy.
Definition login := login bcrypt jwt.
Definition authenticateToken := authenticateToken jwt pg_int.
Definition deleteUser := deleteUser pg_int.
Definition guarded := guarded jwt pg_int.

Definition env : Env := mkEnv (Some "s3cret") None.

Definition alice : User :=
  mkUser 1 (mkAttrs "alice" "alice@x.com" (hash "secret1" 7) "patient").
Definition root : User :=
  mkUser 2 (mkAttrs "root" "root@x.com" (hash "hunter22" 9) "admin").

Definition world0 : World := mkWorld [alice; root] 3 0 [].

Definition no_body : Body := mkBody None None None None.

(** The tokens [generateToken] issues to the two users at time 100. *)
Definition token_of (u : User) : string :=
  match generateToken jwt env 100 u with
  | Ok t => t
  | Throw _ => ""
  end.

Definition alice_token : string := Eval vm_compute in token_of alice.
Definition root_token : string := Eval vm_compute in token_of root.

(** A request that carries nothing but a bearer token. *)
Definition with_token (t : string) : Request :=
  mkRequest (Some ("Bearer " ++ t)) no_body "" None.

(** The table after alice was promoted to admin. *)
Definition alice_promoted : User :=
  mkUser 1 (mkAttrs "alice" "alice@x.com" (hash "secret1" 7) "admin").
Definition world1 : World := mkWorld [alice_promoted; root] 3 0 [].

End Ref.

(** More runs over the reference libraries. *)
Module RefMore.

Definition createUser := createUser Ref.bcrypt Ref.isEmail Ref.entropy.
Definition delete_user_route := delete_user_route Ref.jwt Ref.pg_int.
Definition profile_route := profile_route Ref.jwt Ref.pg_int.

(** A request with a body and nothing else. *)
Definition with_body (b : Body) : Request := mkRequest None b "" None.

(** A request of [u] for the user of key [target]. *)
Definition about (target : string) (u : User) : Request :=
  mkRequest None Ref.no_body target (Some u).

End RefMore.

(* ===================================================================== *)
(** ** [login] over the values a JSON body can hold *)
(* ===================================================================== *)

(** The body parser hands the controllers whatever the JSON text holds, and
    [login] tests its two fields for truthiness only.  This module follows
    [login] of src/controllers/authController.js over such values. *)
Module Json.

(** A value of a JSON body, or its absence.  [Other] stands for the values
    that are truthy and not strings whatever they hold: arrays, objects and
    numbers that are not integers. *)
Inductive Value :=
| Undefined
| Null
| Bool (b : bool)
| Num (n : Z)
| Str (s : string)
| Other.

(** [!v] is [negb (truthy v)]. *)
Definition truthy (v : Value) : bool :=
  match v with
  | Undefined => false
  | Null => false
  | Bool b => b
  | Num n => negb (n =? 0)
  | Str s => negb (s =? "")%string
  | Other => true
  end.

(** A field of the string-typed bodies above, as a value. *)
Definition of_field (v : JS.Field) : Value :=
  match v with
  | Some s => Str s
  | None => Undefined
  end.

(** The two fields [login] reads. *)
Record LoginBody := mkLoginBody {
  j_email : Value;
  j_password : Value
}.

Section Handler.

Variable B : BcryptLib.
Variable J : JwtLib.

(** What the ORM and the database make of [where: { email }] when the value
    is not a string (an error, or the rows some other comparison selects). *)
Variable where_email : Value -> list User -> Res (option User).

(** The outcome of [User.findOne({ where: { email } })] on a table. *)
Definition lookup (e : Value) (rows : list User) : Res (option User) :=
  match e with
  | Str s => Ok (find (fun u => (email (attrs u) =? s)%string) rows)
  | _ => where_email e rows
  end.

(** [User.findOne({ where: { email } })]; the trace records the lookups by
    a string. *)
Definition findOne (e : Value) : M (option User) :=
  match e with
  | Str s => User_findOne s
  | _ => fun w => (lookup e (db w), w)
  end.

(** [user.validatePassword(password)]: [bcrypt.compare] rejects an argument
    that is not a string. *)
Definition validatePassword (u : User) (pw : Value) : Res bool :=
  match pw with
  | Str s => Ok (bcrypt_compare B s (password (attrs u)))
  | _ => Throw PlainError
  end.

Definition login (env : Env) (now : Z) (b : LoginBody) : M Response :=
  try_catch
    (if (negb (truthy (j_email b)) || negb (truthy (j_password b)))%bool
     then ret (failure 400 "Email and password are required")
     else
       found <- findOne (j_email b) ;;
       match found with
       | None => ret invalid_credentials
       | Some u =>
           isValidPassword <- lift (validatePassword u (j_password b)) ;;
           if negb isValidPassword
           then ret invalid_credentials
           else
             token <- lift (generateToken J env now u) ;;
             ret (mkResponse 200 true (Some "Login successful") None
                    (Some (DataUserToken (toJSON u) token)))
       end)
    (fun _ => ret internal_error).

End Handler.

End Json.

(** More of the reference setting. *)
Module RefJson.

(** A database that refuses to compare the email column with anything but
    a string. *)
Definition where_email (e : Json.Value) (rows : list User) : Res (option User) :=
  Throw SequelizeDatabaseError.

Definition login := Json.login Ref.bcrypt Ref.jwt where_email.

(** A database that reads integer keys as PostgreSQL does from version 16
    on: decimal digits, or binary, octal or hexadecimal digits after "0b",
    "0o" or "0x" (signs, blanks and the range check are left out). *)
Fixpoint all_in_radix (radix : Z) (s : string) : bool :=
  match s with
  | String c r =>
      match JS.digit_val c with
      | Some d => ((d <? radix) && all_in_radix radix r)%bool
      | None => false
      end
  | EmptyString => true
  end.

Definition numeral (radix : Z) (s : string) : option Z :=
  if all_in_radix radix s then JS.digits radix None s else None.

Definition pg16_int (s : string) : option Z :=
  match s with
  | String "0" (String "b" r) => numeral 2 r
  | String "0" (String "o" r) => numeral 8 r
  | String "0" (String "x" r) => numeral 16 r
  | _ => numeral 10 s
  end.

(** A token that nobody issued: claims of root, long expired, under a key
    that is not the server's. *)
Definition forged_token : string :=
  Eval vm_compute in
    Ref.encode (mkClaims (mkPayload 2 "root@x.com" "admin") 100 (Some 200)) "guess".

End RefJson.

(* ===================================================================== *)
(** ** The reference libraries meet the contracts *)
(* ===================================================================== *)

Lemma append_assoc (a b c : string) : ((a ++ b) ++ c)%string = (a ++ b ++ c)%string.
Proof.
  induction a as [ | x a IH]; simpl; [reflexivity | now rewrite IH].
Qed.

Lemma append_nil_r (a : string) : (a ++ "")%string = a.
Proof.
  induction a as [ | x a IH]; simpl; [reflexivity | now rewrite IH].
Qed.

Module RefFacts.
Import Ref.

Lemma dec_enc_pos (p : positive) (r : string) : dec_pos (enc_pos p ++ r) = Some (p, r).
Proof.
  induction p as [q IH | q IH | ]; simpl; try rewrite IH; reflexivity.
Qed.

Lemma dec_enc_Z (z : Z) (r : string) : dec_Z (enc_Z z ++ r) = Some (z, r).
Proof.
  destruct z as [ | p | p]; simpl; try rewrite dec_enc_pos; reflexivity.
Qed.

Lemma dec_enc_str (s r : string) : dec_str (enc_str s ++ r) = Some (s, r).
Proof.
  induction s as [ | c x IH].
  - destruct r; reflexivity.
  - cbn [enc_str append dec_str]. simpl Ascii.eqb. cbv iota.
    fold (enc_str x ++ r). rewrite IH. reflexivity.
Qed.

Lemma dec_enc_opt (o : option Z) (r : string) : dec_opt (enc_opt o ++ r) = Some (o, r).
Proof.
  destruct o as [z | ]; simpl; try rewrite dec_enc_Z; reflexivity.
Qed.

Lemma dec_enc_claims (c : Claims) (r : string) :
  dec_claims (enc_claims c ++ r) = Some (c, r).
Proof.
  destruct c as [[uid e ro] i x]. unfold enc_claims, dec_claims.
  cbn [payload userId p_email p_role iat exp].
  repeat rewrite append_assoc.
  rewrite dec_enc_Z, dec_enc_str, dec_enc_str, dec_enc_Z, dec_enc_opt.
  reflexivity.
Qed.

Lemma parse_encode (c : Claims) (key : string) : parse (encode c key) = Some (c, key).
Proof.
  unfold parse, encode. rewrite dec_enc_claims.
  rewrite <- (append_nil_r (enc_str key)) at 1.
  rewrite dec_enc_str. reflexivity.
Qed.

Lemma jwt_spec : JwtSpec jwt.
Proof.
  split; simpl.
  - intros c key. unfold decode. rewrite parse_encode. reflexivity.
  - intros c key. unfold sig_valid. rewrite parse_encode. apply String.eqb_refl.
  - reflexivity.
Qed.

Lemma take_take (n : nat) (s : string) : take n (take n s) = take n s.
Proof.
  revert s. induction n as [ | k IH]; intros [ | c r]; simpl; try rewrite IH; reflexivity.
Qed.

Lemma bcrypt_spec : BcryptSpec bcrypt.
Proof.
  split; intros s salt; cbn [bcrypt bcrypt_hash bcrypt_getSalt]; unfold getSalt, hash.
  - rewrite dec_enc_pos. reflexivity.
  - rewrite take_take. reflexivity.
Qed.

End RefFacts.

(* ===================================================================== *)
(** ** Properties of the pipeline *)
(* ===================================================================== *)

(** Unfolds the plumbing of the handler monad. *)
Ltac run := unfold try_catch, bind, ret, throw, lift, record_call; cbn beta iota.

Lemma includes_In (a : list string) (x : string) :
  JS.includes a x = true <-> In x a.
Proof.
  unfold JS.includes. rewrite existsb_exists. split.
  - intros [y [Hy E]]. apply String.eqb_eq in E. now subst.
  - intros H. exists x. split; [assumption | apply String.eqb_refl].
Qed.

Lemma truthy_or_default (v : JS.Field) (d : string) :
  JS.truthy v = true -> v = Some (JS.or_default v d).
Proof.
  destruct v as [s | ]; simpl; [ | discriminate].
  destruct (s =? "")%string; [discriminate | reflexivity].
Qed.

Lemma or_default_token (token : string) :
  JS.truthy (Some token) = true -> JS.or_default (Some token) "" = token.
Proof.
  cbn [JS.truthy JS.or_default].
  destruct (token =? "")%string; [discriminate | reflexivity].
Qed.

Section AdminDelete.

Variable pg_int : string -> option Z.

(** The guard of [deleteUser], where it fires.  An administrative delete
    whose target parameter reads, by [parseInt], as the acting admin's own
    identifier is answered 400 "Cannot delete your own account".  The world is returned
    as it was: no [findByPk] call is made, so the guard is decided before,
    and whatever the outcome of, the not-found check. *)
Theorem deleteUser_self_rejected (req : Request) (me : User) (w : World) :
  user req = Some me ->
  JS.parseInt (params_userId req) = Some (id me) ->
  deleteUser pg_int req w = (Ok (failure 400 "Cannot delete your own account"), w).
Proof.
  intros Hme Hid. unfold deleteUser. run. rewrite Hme. cbn beta iota.
  unfold JS.parseInt_is. rewrite Hid, Z.eqb_refl. reflexivity.
Qed.

End AdminDelete.

(** Run of [deleteUser_self_rejected]: admin 2 asks to delete user "2". *)
Lemma deleteUser_self_rejected_witness :
  Ref.deleteUser (mkRequest None Ref.no_body "2" (Some Ref.root)) Ref.world0
  = (Ok (failure 400 "Cannot delete your own account"), Ref.world0).
Proof.
  apply (deleteUser_self_rejected Ref.pg_int
           (mkRequest None Ref.no_body "2" (Some Ref.root)) Ref.root Ref.world0);
    reflexivity.
Defined.

(** Where the self-deletion guard fires it answers 400, not 403. *)
Lemma deleteUser_self_status_not_403 :
  let req := mkRequest None Ref.no_body "2" (Some Ref.root) in
  user req = Some Ref.root
  /\ JS.parseInt (params_userId req) = Some (id Ref.root)
  /\ exists r, fst (Ref.deleteUser req Ref.world0) = Ok r
               /\ status r = 400 /\ status r <> 403.
Proof.
  cbv zeta. split; [reflexivity | split; [reflexivity | ]].
  eexists. split; [vm_compute; reflexivity | ].
  split; [reflexivity | discriminate].
Qed.



Section Login.

Variable B : BcryptLib.
Variable J : JwtLib.

(** Over bodies of strings: a login with an unknown email and a login with
    a known email and a password that does not verify get the same answer:
    401 with the one message "Invalid email or password". *)
Theorem login_failures_identical (env : Env) (now : Z)
    (req1 req2 : Request) (w1 w2 : World) (u : User) :
  JS.truthy (b_email (body req1)) = true ->
  JS.truthy (b_password (body req1)) = true ->
  JS.truthy (b_email (body req2)) = true ->
  JS.truthy (b_password (body req2)) = true ->
  find (fun r => (email (attrs r) =? JS.or_default (b_email (body req1)) "")%string)
       (db w1) = None ->
  find (fun r => (email (attrs r) =? JS.or_default (b_email (body req2)) "")%string)
       (db w2) = Some u ->
  validatePassword B u (JS.or_default (b_password (body req2)) "") = false ->
  fst (login B J env now req1 w1) = Ok (failure 401 "Invalid email or password")
  /\ fst (login B J env now req2 w2) = fst (login B J env now req1 w1).
Proof.
  intros E1 P1 E2 P2 Habsent Hfound Hwrong.
  assert (H1 : fst (login B J env now req1 w1) = Ok invalid_credentials).
  { unfold login. run. rewrite E1, P1. cbn [negb orb]. unfold User_findOne. run.
    cbn [db]. rewrite Habsent. reflexivity. }
  assert (H2 : fst (login B J env now req2 w2) = Ok invalid_credentials).
  { unfold login. run. rewrite E2, P2. cbn [negb orb]. unfold User_findOne. run.
    cbn [db]. rewrite Hfound. cbn beta iota. rewrite Hwrong. reflexivity. }
  rewrite H2, H1. split; reflexivity.
Qed.

End Login.

(** Run of [login_failures_identical]: an unknown address against alice's
    address with a wrong password. *)
Lemma login_failures_identical_witness :
  fst (Ref.login Ref.env 100
         (mkRequest None (mkBody None (Some "nobody@x.com") (Some "secret1") None) "" None)
         Ref.world0)
  = Ok (failure 401 "Invalid email or password")
  /\ fst (Ref.login Ref.env 100
            (mkRequest None (mkBody None (Some "alice@x.com") (Some "secret2") None) "" None)
            Ref.world0)
     = fst (Ref.login Ref.env 100
              (mkRequest None (mkBody None (Some "nobody@x.com") (Some "secret1") None) "" None)
              Ref.world0).
Proof.
  apply (login_failures_identical Ref.bcrypt Ref.jwt Ref.env 100
           (mkRequest None (mkBody None (Some "nobody@x.com") (Some "secret1") None) "" None)
           (mkRequest None (mkBody None (Some "alice@x.com") (Some "secret2") None) "" None)
           Ref.world0 Ref.world0 Ref.alice); reflexivity.
Defined.

Section Tokens.

Variable J : JwtLib.
Variable pg_int : string -> option Z.

Lemma well_signed_verify (token : string) (secret : option string) (now : Z) :
  well_signed J token secret = true ->
  jwt_verify J token secret now
  = match jwt_decode J token with
    | Some c => if past_expiry J token now then Throw TokenExpiredError else Ok c
    | None => Throw JsonWebTokenError
    end.
Proof.
  unfold well_signed, jwt_verify, past_expiry.
  destruct (jwt_decode J token) as [c | ]; [ | discriminate].
  intros H. apply andb_prop in H. destruct H as [Hs Hv]. rewrite Hs, Hv.
  destruct (exp c) as [e | ]; reflexivity.
Qed.

Lemma not_well_signed_verify (token : string) (secret : option string) (now : Z) :
  well_signed J token secret = false ->
  jwt_verify J token secret now = Throw JsonWebTokenError.
Proof.
  unfold well_signed, jwt_verify.
  destruct (jwt_decode J token) as [c | ]; [ | reflexivity].
  destruct (JS.truthy secret); [ | reflexivity].
  cbn [andb]. intros H. rewrite H. reflexivity.
Qed.

(** C3 (as the code has it).  The two rejections of a token are told
    apart.  A token that parses and is correctly signed but whose expiry has
    passed is answered 401 "Token expired"; a token that does not parse or
    whose signature does not match is answered 401 "Invalid token", whatever
    expiry it carries; the two answers differ, so a correctly signed expired
    token is not reported as malformed.  Neither case touches the store. *)
Theorem token_rejections_distinct (env : Env) (now : Z) (req : Request) (w : World)
    (token : string) :
  bearer (authorization req) = Some token ->
  JS.truthy (Some token) = true ->
  (well_signed J token (JWT_SECRET env) = true ->
   past_expiry J token now = true ->
   authenticateToken J pg_int env now req w
   = (Ok (Respond (failure 401 "Token expired")), w))
  /\ (well_signed J token (JWT_SECRET env) = false ->
      authenticateToken J pg_int env now req w
      = (Ok (Respond (failure 401 "Invalid token")), w))
  /\ failure 401 "Token expired" <> failure 401 "Invalid token".
Proof.
  intros Hb Ht. split; [ | split].
  - intros Hs He. unfold authenticateToken. run. rewrite Hb, Ht. cbn [negb].
    rewrite (or_default_token _ Ht), (well_signed_verify _ _ now Hs).
    unfold past_expiry in He |- *.
    destruct (jwt_decode J token) as [c | ]; [ | discriminate].
    destruct (exp c) as [e | ]; [ | discriminate]. rewrite He. reflexivity.
  - intros Hs. unfold authenticateToken. run. rewrite Hb, Ht. cbn [negb].
    rewrite (or_default_token _ Ht), (not_well_signed_verify _ _ now Hs). reflexivity.
  - discriminate.
Qed.

End Tokens.

(** Run of [token_rejections_distinct]: root's token a week and more after
    it was issued, and a string that is no token. *)
Lemma token_rejections_distinct_witness :
  Ref.authenticateToken Ref.env 604900 (Ref.with_token Ref.root_token) Ref.world0
  = (Ok (Respond (failure 401 "Token expired")), Ref.world0)
  /\ Ref.authenticateToken Ref.env 604900 (Ref.with_token "garbage") Ref.world0
     = (Ok (Respond (failure 401 "Invalid token")), Ref.world0).
Proof.
  split.
  - apply (proj1 (token_rejections_distinct Ref.jwt Ref.pg_int Ref.env 604900
                    (Ref.with_token Ref.root_token) Ref.world0 Ref.root_token
                    eq_refl eq_refl)); reflexivity.
  - apply (proj1 (proj2 (token_rejections_distinct Ref.jwt Ref.pg_int Ref.env 604900
                    (Ref.with_token "garbage") Ref.world0 "garbage"
                    eq_refl eq_refl))); reflexivity.
Defined.

Section Issue.

Variable J : JwtLib.
Hypothesis J_ok : JwtSpec J.

(** [jwt.verify] after [jwt.sign]: under the same secret and before the
    expiry, the claims come back as they were signed. *)
Lemma verify_encode (c : Claims) (secret : option string) (now e : Z) :
  JS.truthy secret = true ->
  exp c = Some e ->
  now < e ->
  jwt_verify J (jwt_encode J c (JS.or_default secret "")) secret now = Ok c.
Proof.
  intros Hs He Hnow. unfold jwt_verify.
  rewrite (decode_encode J J_ok), Hs, (sig_valid_encode J J_ok), He.
  destruct (Z.leb_spec e now) as [Hle | Hlt]; [lia | reflexivity].
Qed.

(** C5.  With a signing secret configured and a lifetime the library
    accepts, [generateToken] returns a token, and verifying that token
    under the same secret at any time before its expiry returns the
    claims it was issued with: the user's identifier, email and role. *)
Theorem issued_token_verifies (env : Env) (t0 now life : Z) (u : User) :
  JS.truthy (JWT_SECRET env) = true ->
  jwt_timespan J (JS.or_default (JWT_EXPIRES_IN env) "7d") = Some life ->
  now < t0 + life ->
  exists token,
    generateToken J env t0 u = Ok token
    /\ jwt_verify J token (JWT_SECRET env) now
       = Ok (mkClaims (mkPayload (id u) (email (attrs u)) (role (attrs u)))
                      t0 (Some (t0 + life))).
Proof.
  intros Hs Hl Hnow. unfold generateToken, jwt_sign. rewrite Hs, Hl.
  eexists. split; [reflexivity | ].
  apply (verify_encode _ _ now (t0 + life) Hs); [reflexivity | exact Hnow].
Qed.

End Issue.

(** Run of [issued_token_verifies]: alice's token, one second after issue,
    under the default lifetime of seven days. *)
Lemma issued_token_verifies_witness :
  exists token,
    generateToken Ref.jwt Ref.env 100 Ref.alice = Ok token
    /\ jwt_verify Ref.jwt token (JWT_SECRET Ref.env) 101
       = Ok (mkClaims (mkPayload 1 "alice@x.com" "patient") 100 (Some (100 + 604800))).
Proof.
  apply (issued_token_verifies Ref.jwt RefFacts.jwt_spec Ref.env 100 101 604800 Ref.alice);
    [reflexivity | reflexivity | lia].
Defined.

Section Gate.

Variable J : JwtLib.
Variable pg_int : string -> option Z.

(** What [authenticateToken] does with a token that verifies: one lookup
    by the identifier of the claims, nothing else of the claims is read. *)
Lemma authenticateToken_verified (env : Env) (now : Z) (req : Request) (w : World)
    (token : string) (claims : Claims) :
  bearer (authorization req) = Some token ->
  JS.truthy (Some token) = true ->
  jwt_verify J token (JWT_SECRET env) now = Ok claims ->
  authenticateToken J pg_int env now req w
  = (Ok match find_id (userId (payload claims)) (db w) with
        | Some u => Next (with_user req u)
        | None => Respond (failure 401 "Invalid token - user not found")
        end,
     mkWorld (db w) (next_id w) (draws w)
             (log w ++ [CallFindByPk (PkNum (userId (payload claims)))])).
Proof.
  intros Hb Ht Hv. unfold authenticateToken. run. rewrite Hb, Ht. cbn [negb].
  rewrite (or_default_token _ Ht), Hv. unfold User_findByPk. run. cbn [db].
  destruct (find_id (userId (payload claims)) (db w)); reflexivity.
Qed.

(** C2.  On a guarded route the decision is taken on the role of the user
    row loaded from the store under the identifier of the verified claims:
    the request passes exactly when that row's role is allowed, whatever
    role the token itself carries.  A token issued before a role change is
    therefore judged by the role the store holds now. *)
Theorem gate_reads_stored_role (env : Env) (now : Z) (req : Request) (w : World)
    (allowed : list string) (token : string) (claims : Claims) (u : User) :
  bearer (authorization req) = Some token ->
  JS.truthy (Some token) = true ->
  jwt_verify J token (JWT_SECRET env) now = Ok claims ->
  find_id (userId (payload claims)) (db w) = Some u ->
  fst (guarded J pg_int (requireRole allowed) env now req w)
  = Ok (if JS.includes allowed (role (attrs u))
        then Next (with_user req u)
        else Respond (denied allowed)).
Proof.
  intros Hb Ht Hv Hu. unfold guarded. run.
  rewrite (authenticateToken_verified env now req w token claims Hb Ht Hv), Hu.
  cbn beta iota. unfold requireRole. cbn [with_user user fst].
  destruct (JS.includes allowed (role (attrs u))); reflexivity.
Qed.

Hypothesis J_ok : JwtSpec J.

(** The case of a role changed after the token was issued, spelled out: a
    token issued to [u0] and presented, before its expiry, when the store
    holds the row [u] under the same identifier, is judged by the role of
    [u]; the role [u0] had at issue plays no part. *)
Lemma stale_token_judged_by_stored_role (env : Env) (t0 now life : Z) (u0 u : User)
    (req : Request) (w : World) (allowed : list string) (token : string) :
  JS.truthy (JWT_SECRET env) = true ->
  jwt_timespan J (JS.or_default (JWT_EXPIRES_IN env) "7d") = Some life ->
  now < t0 + life ->
  generateToken J env t0 u0 = Ok token ->
  bearer (authorization req) = Some token ->
  JS.truthy (Some token) = true ->
  find_id (id u0) (db w) = Some u ->
  fst (guarded J pg_int (requireRole allowed) env now req w)
  = Ok (if JS.includes allowed (role (attrs u))
        then Next (with_user req u)
        else Respond (denied allowed)).
Proof.
  intros Hs Hl Hnow Hg Hb Ht Hu.
  unfold generateToken, jwt_sign in Hg. rewrite Hs, Hl in Hg.
  injection Hg as <-.
  pose proof (verify_encode J J_ok
                (mkClaims (mkPayload (id u0) (email (attrs u0)) (role (attrs u0)))
                          t0 (Some (t0 + life)))
                (JWT_SECRET env) now (t0 + life) Hs eq_refl Hnow) as Hv.
  unfold guarded. run.
  rewrite (authenticateToken_verified env now req w _ _ Hb Ht Hv).
  cbn [payload userId]. rewrite Hu.
  cbn beta iota. unfold requireRole. cbn [with_user user fst].
  destruct (JS.includes allowed (role (attrs u))); reflexivity.
Qed.

End Gate.

(** Run of [gate_reads_stored_role]: alice's token was issued while she was a
    patient and carries that role; after her promotion the admin gate lets
    the same token through. *)
Lemma gate_reads_stored_role_witness :
  jwt_verify Ref.jwt Ref.alice_token (JWT_SECRET Ref.env) 101
  = Ok (mkClaims (mkPayload 1 "alice@x.com" "patient") 100 (Some 604900))
  /\ fst (Ref.guarded requireAdmin Ref.env 101 (Ref.with_token Ref.alice_token) Ref.world1)
     = Ok (Next (with_user (Ref.with_token Ref.alice_token) Ref.alice_promoted)).
Proof.
  split; [reflexivity | ].
  apply (gate_reads_stored_role Ref.jwt Ref.pg_int Ref.env 101
           (Ref.with_token Ref.alice_token) Ref.world1 ["admin"] Ref.alice_token
           (mkClaims (mkPayload 1 "alice@x.com" "patient") 100 (Some 604900))
           Ref.alice_promoted); reflexivity.
Defined.

Section Register.

Variable B : BcryptLib.
Variable J : JwtLib.
Variable isEmail : string -> bool.
Variable entropy : nat -> Salt B.

Lemma truthy_password (v : JS.Field) :
  JS.truthy v = true -> JS.truthy (Some (JS.or_default v "")) = true.
Proof.
  intros H. rewrite <- (truthy_or_default v "" H). exact H.
Qed.

(** [User.create] on values that pass validation: one salt is drawn, the
    password is replaced by its hash, and the row goes to the INSERT. *)
Lemma User_create_valid (a : Attrs) (w : World) :
  validate isEmail a = [] ->
  JS.truthy (Some (password a)) = true ->
  User_create B isEmail entropy a w
  = insert (mkAttrs (username a) (email a)
                    (bcrypt_hash B (password a) (entropy (draws w))) (role a))
           (mkWorld (db w) (next_id w) (S (draws w)) (log w ++ [CallCreate])).
Proof.
  intros Hv Hp. unfold User_create. run. rewrite Hv.
  unfold beforeCreate. cbn [dataValues]. rewrite Hp. unfold genSalt. run.
  reflexivity.
Qed.


Hypothesis J_ok : JwtSpec J.

(** C10.  [register] takes the role from the request body.  When the
    body asks for one of "admin", "doctor", "patient" (or names no role,
    which stands for "patient"), and the other fields are valid and not
    yet taken, the answer is 201, the row created carries that role, and
    so do the claims of the token handed back. *)
Theorem register_grants_requested_role (env : Env) (now life : Z) (req : Request)
    (w : World) (r : string) :
  JS.truthy (b_username (body req)) = true ->
  JS.truthy (b_email (body req)) = true ->
  JS.truthy (b_password (body req)) = true ->
  len_between 3 50 (username (registration (body req))) = true ->
  isEmail (email (registration (body req))) = true ->
  len_between 6 100 (password (registration (body req))) = true ->
  username_taken (username (registration (body req))) (db w) = false ->
  email_taken (email (registration (body req))) (db w) = false ->
  JS.truthy (JWT_SECRET env) = true ->
  jwt_timespan J (JS.or_default (JWT_EXPIRES_IN env) "7d") = Some life ->
  (b_role (body req) = Some r /\ In r ["admin"; "doctor"; "patient"])
  \/ (b_role (body req) = None /\ r = "patient") ->
  exists token created,
    register B J isEmail entropy env now req w
    = (Ok (mkResponse 201 true (Some "User registered successfully") None
             (Some (DataUserToken (toJSON created) token))),
       mkWorld (db w ++ [created]) (next_id w + 1) (S (draws w))
               (log w ++ [CallCreate]))
    /\ role (attrs created) = r
    /\ exists c, jwt_decode J token = Some c /\ p_role (payload c) = r
                 /\ userId (payload c) = id created.
Proof.
  intros Hu He Hp Vu Ve Vp Fu Fe Hs Hl Hr.
  assert (Er : role (registration (body req)) = r).
  { cbn [registration role].
    destruct Hr as [[E Hin] | [E Hp']]; rewrite E; cbn [JS.or_default].
    - cbn [In] in Hin. destruct Hin as [<- | [<- | [<- | []]]]; reflexivity.
    - now subst. }
  assert (Vr : JS.includes ["admin"; "patient"; "doctor"]
                 (role (registration (body req))) = true).
  { rewrite Er. apply includes_In.
    destruct Hr as [[_ Hin] | [_ ->]]; cbn [In] in *; intuition. }
  assert (Hv : validate isEmail (registration (body req)) = []).
  { unfold validate. rewrite Vu, Ve, Vp, Vr. reflexivity. }
  unfold register. run. rewrite Hu, He, Hp. cbn [negb orb].
  rewrite (User_create_valid _ w Hv (truthy_password _ Hp)).
  unfold insert. cbn [username email db next_id draws log].
  rewrite Fu, Fe. unfold generateToken, jwt_sign. rewrite Hs, Hl.
  cbn [id attrs email role].
  eexists. eexists. split; [reflexivity | ].
  cbn [attrs role id]. split; [exact Er | ].
  rewrite (decode_encode J J_ok). eexists. split; [reflexivity | ].
  cbn [payload p_role userId]. split; [exact Er | reflexivity].
Qed.

End Register.



(** Run of [register_grants_requested_role]: carol registers herself as an
    admin. *)
Lemma register_grants_requested_role_witness :
  exists token created,
    Ref.register Ref.env 100
      (mkRequest None
         (mkBody (Some "carol") (Some "carol@x.com") (Some "secret1") (Some "admin"))
         "" None)
      Ref.world0
    = (Ok (mkResponse 201 true (Some "User registered successfully") None
             (Some (DataUserToken (toJSON created) token))),
       mkWorld (db Ref.world0 ++ [created]) (next_id Ref.world0 + 1)
               (S (draws Ref.world0)) (log Ref.world0 ++ [CallCreate]))
    /\ role (attrs created) = "admin"
    /\ exists c, jwt_decode Ref.jwt token = Some c /\ p_role (payload c) = "admin"
                 /\ userId (payload c) = id created.
Proof.
  apply (register_grants_requested_role Ref.bcrypt Ref.jwt Ref.isEmail Ref.entropy
           RefFacts.jwt_spec Ref.env 100 604800
           (mkRequest None
              (mkBody (Some "carol") (Some "carol@x.com") (Some "secret1") (Some "admin"))
              "" None)
           Ref.world0 "admin"); try reflexivity.
  left. split; [reflexivity | ]. cbn [In]. left. reflexivity.
Defined.

Section Hooks.

Variable B : BcryptLib.
Variable entropy : nat -> Salt B.

Lemma beforeCreate_hashes (inst : Instance) (w : World) :
  JS.truthy (Some (password (dataValues inst))) = true ->
  beforeCreate B entropy inst w
  = (Ok (with_password inst
           (bcrypt_hash B (password (dataValues inst)) (entropy (draws w)))),
     drew w).
Proof.
  intros H. unfold beforeCreate. rewrite H. reflexivity.
Qed.

(** Assigning another key leaves the password and its flag alone. *)
Lemma set_username_password (v : string) (i : Instance) :
  changed "password" (set_username v i) = changed "password" i
  /\ password (dataValues (set_username v i)) = password (dataValues i).
Proof.
  unfold set_username. destruct (v =? username (dataValues i))%string;
    split; reflexivity.
Qed.

Lemma set_email_password (v : string) (i : Instance) :
  changed "password" (set_email v i) = changed "password" i
  /\ password (dataValues (set_email v i)) = password (dataValues i).
Proof.
  unfold set_email. destruct (v =? email (dataValues i))%string;
    split; reflexivity.
Qed.

Lemma set_role_password (v : string) (i : Instance) :
  changed "password" (set_role v i) = changed "password" i
  /\ password (dataValues (set_role v i)) = password (dataValues i).
Proof.
  unfold set_role. destruct (v =? role (dataValues i))%string;
    split; reflexivity.
Qed.

Lemma set_password_password (v : string) (i : Instance) :
  changed "password" (set_password v i)
  = (negb (v =? password (dataValues i))%string || changed "password" i)%bool
  /\ password (dataValues (set_password v i)) = v.
Proof.
  unfold set_password.
  destruct (v =? password (dataValues i))%string eqn:E; split; try reflexivity.
  apply String.eqb_eq in E. now rewrite E.
Qed.

Lemma apply_opt_other (f : string -> Instance -> Instance) (v : option string)
    (i : Instance) :
  (forall s j, changed "password" (f s j) = changed "password" j
               /\ password (dataValues (f s j)) = password (dataValues j)) ->
  changed "password" (apply_opt f v i) = changed "password" i
  /\ password (dataValues (apply_opt f v i)) = password (dataValues i).
Proof.
  intros H. destruct v as [s | ]; [apply H | split; reflexivity].
Qed.

Lemma set_all_password (c : Changes) (u : User) :
  changed "password" (set_all c (loaded u)) = password_changes c u
  /\ password (dataValues (set_all c (loaded u))) = requested_password c u.
Proof.
  unfold set_all, password_changes, requested_password.
  destruct (apply_opt_other set_role (new_role c)
              (apply_opt set_password (new_password c)
                 (apply_opt set_email (new_email c)
                    (apply_opt set_username (new_username c) (loaded u))))
              set_role_password) as [-> ->].
  destruct (apply_opt_other set_email (new_email c)
              (apply_opt set_username (new_username c) (loaded u))
              set_email_password) as [Ec Ep].
  destruct (apply_opt_other set_username (new_username c) (loaded u)
              set_username_password) as [Uc Up].
  destruct (new_password c) as [v | ]; cbn [apply_opt].
  - destruct (set_password_password v
                (apply_opt set_email (new_email c)
                   (apply_opt set_username (new_username c) (loaded u))))
      as [-> ->].
    rewrite Ec, Ep, Uc, Up. cbn [loaded dataValues]. 
    split; [apply orb_false_r | reflexivity].
  - rewrite Ec, Ep, Uc, Up. split; reflexivity.
Qed.

(** C9.  On an update, [beforeUpdate] hashes exactly when the update
    assigns the password a value other than the stored one.  In that case
    one salt is drawn and the instance goes to the store with the hash of
    the new value under that salt; otherwise no salt is drawn and the
    instance goes on untouched, its password the stored hash. *)
Theorem beforeUpdate_hashes_iff_changed (u : User) (c : Changes) (w : World) :
  let inst := set_all c (loaded u) in
  changed "password" inst = password_changes c u
  /\ beforeUpdate B entropy inst w
     = (if password_changes c u
        then (Ok (with_password inst
                    (bcrypt_hash B (requested_password c u) (entropy (draws w)))),
              drew w)
        else (Ok inst, w))
  /\ (draws (snd (beforeUpdate B entropy inst w)) <> draws w
      <-> password_changes c u = true)
  /\ (password_changes c u = false ->
      password (dataValues inst) = password (attrs u)).
Proof.
  cbv zeta. destruct (set_all_password c u) as [Hc Hp].
  assert (E : beforeUpdate B entropy (set_all c (loaded u)) w
              = (if password_changes c u
                 then (Ok (with_password (set_all c (loaded u))
                             (bcrypt_hash B (requested_password c u)
                                (entropy (draws w)))),
                       drew w)
                 else (Ok (set_all c (loaded u)), w))).
  { unfold beforeUpdate. rewrite Hc, Hp.
    destruct (password_changes c u); reflexivity. }
  split; [exact Hc | split; [exact E | split]].
  - rewrite E. destruct (password_changes c u); cbn [snd drew draws]; split;
      intros H; try reflexivity; try discriminate; lia.
  - intros H. rewrite Hp. unfold password_changes, requested_password in *.
    destruct (new_password c) as [v | ]; [ | reflexivity].
    apply negb_false_iff, String.eqb_eq in H. exact H.
Qed.

End Hooks.

(** Run of [beforeUpdate_hashes_iff_changed]: alice sets a new password,
    which is hashed under the next salt; then she changes her role only, and
    the stored hash goes on as it is. *)
Lemma beforeUpdate_hashes_iff_changed_witness :
  beforeUpdate Ref.bcrypt Ref.entropy
    (set_all (mkChanges None None (Some "secret2") None) (loaded Ref.alice)) Ref.world0
  = (Ok (mkInstance (mkAttrs "alice" "alice@x.com" (Ref.hash "secret2" 1) "patient")
           ["password"]),
     drew Ref.world0)
  /\ beforeUpdate Ref.bcrypt Ref.entropy
       (set_all (mkChanges None None None (Some "doctor")) (loaded Ref.alice)) Ref.world0
     = (Ok (mkInstance (mkAttrs "alice" "alice@x.com" (Ref.hash "secret1" 7) "doctor")
              ["role"]),
        Ref.world0)
  /\ password (dataValues (set_all (mkChanges None None None (Some "doctor"))
                             (loaded Ref.alice)))
     = password (attrs Ref.alice).
Proof.
  split; [ | split].
  - exact (proj1 (proj2 (beforeUpdate_hashes_iff_changed Ref.bcrypt Ref.entropy Ref.alice
                           (mkChanges None None (Some "secret2") None) Ref.world0))).
  - exact (proj1 (proj2 (beforeUpdate_hashes_iff_changed Ref.bcrypt Ref.entropy Ref.alice
                           (mkChanges None None None (Some "doctor")) Ref.world0))).
  - apply (proj2 (proj2 (proj2 (beforeUpdate_hashes_iff_changed Ref.bcrypt Ref.entropy
                                  Ref.alice (mkChanges None None None (Some "doctor"))
                                  Ref.world0)))).
    reflexivity.
Defined.

Section Passwords.

Variable B : BcryptLib.
Variable entropy : nat -> Salt B.
Hypothesis B_ok : BcryptSpec B.

Lemma compare_hash (p q : string) (salt : Salt B) :
  bcrypt_compare B q (bcrypt_hash B p salt)
  = (bcrypt_hash B q salt =? bcrypt_hash B p salt)%string.
Proof.
  unfold bcrypt_compare. rewrite (getSalt_hash B B_ok). reflexivity.
Qed.

Lemma hash_salt_inj (p q : string) (s1 s2 : Salt B) :
  bcrypt_hash B p s1 = bcrypt_hash B q s2 -> s1 = s2.
Proof.
  intros E. apply (f_equal (bcrypt_getSalt B)) in E.
  rewrite !(getSalt_hash B B_ok) in E. now injection E.
Qed.

(** C4 (as the code has it).  [beforeCreate] replaces a non-empty
    password by its hash under the next salt, and [validatePassword] accepts
    that password against the stored hash.  Hashing the same password under
    two different salts gives two different stored hashes, each of which
    the password verifies against.  Another password is accepted exactly
    when it hashes, under the salt of the stored hash, to the stored hash;
    this is the case for every password with the same first 72 bytes. *)
Theorem stored_hash_verifies (a : Attrs) (keys : list string) (n : Z) (w1 w2 : World) :
  JS.truthy (Some (password a)) = true ->
  let h1 := bcrypt_hash B (password a) (entropy (draws w1)) in
  let h2 := bcrypt_hash B (password a) (entropy (draws w2)) in
  beforeCreate B entropy (mkInstance a keys) w1
  = (Ok (mkInstance (stored a h1) keys), drew w1)
  /\ beforeCreate B entropy (mkInstance a keys) w2
     = (Ok (mkInstance (stored a h2) keys), drew w2)
  /\ validatePassword B (mkUser n (stored a h1)) (password a) = true
  /\ validatePassword B (mkUser n (stored a h2)) (password a) = true
  /\ (entropy (draws w1) <> entropy (draws w2) -> h1 <> h2)
  /\ (forall q, validatePassword B (mkUser n (stored a h1)) q = true
                <-> bcrypt_hash B q (entropy (draws w1)) = h1)
  /\ (forall q, take 72 q = take 72 (password a) ->
                validatePassword B (mkUser n (stored a h1)) q = true).
Proof.
  intros Hp h1 h2. subst h1 h2.
  assert (V : forall q salt,
             validatePassword B (mkUser n (stored a (bcrypt_hash B (password a) salt))) q
             = true
             <-> bcrypt_hash B q salt = bcrypt_hash B (password a) salt).
  { intros q salt. unfold validatePassword. cbn [attrs stored password].
    rewrite compare_hash. apply String.eqb_eq. }
  split; [apply (beforeCreate_hashes B entropy (mkInstance a keys) w1 Hp) | ].
  split; [apply (beforeCreate_hashes B entropy (mkInstance a keys) w2 Hp) | ].
  split; [apply V; reflexivity | ].
  split; [apply V; reflexivity | ].
  split; [intros Hs E; apply Hs; exact (hash_salt_inj _ _ _ _ E) | ].
  split; [intros q; apply V | ].
  intros q E. apply V.
  rewrite (hash_72_bytes B B_ok q), (hash_72_bytes B B_ok (password a)), E.
  reflexivity.
Qed.

End Passwords.

(** Run of [stored_hash_verifies]: the password "secret1" hashed at the
    first and at the second draw. *)
Lemma stored_hash_verifies_witness :
  let a := mkAttrs "dave" "dave@x.com" "secret1" "patient" in
  validatePassword Ref.bcrypt (mkUser 5 (stored a (Ref.hash "secret1" 1))) "secret1" = true
  /\ validatePassword Ref.bcrypt (mkUser 5 (stored a (Ref.hash "secret1" 2))) "secret1" = true
  /\ Ref.hash "secret1" 1 <> Ref.hash "secret1" 2.
Proof.
  cbv zeta.
  destruct (stored_hash_verifies Ref.bcrypt Ref.entropy RefFacts.bcrypt_spec
              (mkAttrs "dave" "dave@x.com" "secret1" "patient") [] 5
              Ref.world0 (drew Ref.world0) eq_refl)
    as (_ & _ & V1 & V2 & D & _).
  split; [exact V1 | split; [exact V2 | ]].
  apply D. discriminate.
Defined.

(** C4 as stated fails: two different passwords of 73 bytes, both within
    the length the model accepts, verify against each other's hash, under
    every library that meets the contract and every salt. *)
Lemma distinct_passwords_verify :
  long_b <> long_c
  /\ len_between 6 100 long_b = true
  /\ len_between 6 100 long_c = true
  /\ validatePassword Ref.bcrypt
       (mkUser 5 (mkAttrs "dave" "dave@x.com" (Ref.hash long_c 1) "patient")) long_b
     = true
  /\ forall (B : BcryptLib) (a : Attrs) (n : Z) (salt : Salt B),
       BcryptSpec B ->
       validatePassword B (mkUser n (stored a (bcrypt_hash B long_c salt))) long_b = true.
Proof.
  split; [discriminate | ].
  split; [reflexivity | ].
  split; [reflexivity | ].
  split; [vm_compute; reflexivity | ].
  intros B a n salt HB. unfold validatePassword. cbn [attrs stored password].
  rewrite (compare_hash B HB).
  rewrite (hash_72_bytes B HB long_b), (hash_72_bytes B HB long_c).
  apply String.eqb_refl.
Qed.

(* ===================================================================== *)
(** ** Further properties: the token middleware *)
(* ===================================================================== *)

Lemma split_no_space (h : string) : no_space h = true -> JS.split " " h = [h].
Proof.
  induction h as [ | c r IH]; [reflexivity | ].
  cbn [no_space JS.split]. intros H. apply andb_prop in H. destruct H as [Hc Hr].
  apply negb_true_iff in Hc. rewrite Hc, (IH Hr). reflexivity.
Qed.

Lemma split_at_space (a b : string) :
  no_space a = true -> JS.split " " (a ++ String " " b) = a :: JS.split " " b.
Proof.
  induction a as [ | c r IH]; [reflexivity | ].
  cbn [no_space append JS.split]. intros H. apply andb_prop in H.
  destruct H as [Hc Hr]. apply negb_true_iff in Hc. rewrite Hc, (IH Hr). reflexivity.
Qed.

Lemma bearer_second_piece (scheme token tail : string) :
  no_space scheme = true ->
  no_space token = true ->
  tail = "" \/ (exists t, tail = String " " t) ->
  bearer (Some (scheme ++ " " ++ token ++ tail)) = Some token.
Proof.
  intros Hs Ht Htail. unfold bearer.
  assert (Hne : JS.truthy (Some (scheme ++ " " ++ token ++ tail)) = true).
  { destruct scheme; reflexivity. }
  rewrite Hne.
  change (scheme ++ " " ++ token ++ tail)%string
    with (scheme ++ String " " (token ++ tail))%string.
  rewrite (split_at_space _ _ Hs).
  destruct Htail as [-> | [t ->]].
  - rewrite append_nil_r, (split_no_space _ Ht). reflexivity.
  - rewrite (split_at_space _ _ Ht). reflexivity.
Qed.

Section TokenMiddleware.

Variable J : JwtLib.
Variable pg_int : string -> option Z.

(** X1.  A request with no [Authorization] header, or with a header that has
    no space in it (the empty header, or a lone word such as "Bearer"), is
    answered 401 "Access token required"; the token library and the store
    are not reached. *)
Theorem authenticateToken_without_token (env : Env) (now : Z) (req : Request)
    (w : World) :
  authorization req = None
  \/ (exists h, authorization req = Some h /\ no_space h = true) ->
  authenticateToken J pg_int env now req w
  = (Ok (Respond (failure 401 "Access token required")), w).
Proof.
  intros H.
  assert (E : JS.truthy (bearer (authorization req)) = false).
  { destruct H as [-> | [h [-> Hh]]]; [reflexivity | ].
    unfold bearer. destruct (JS.truthy (Some h)) eqn:Th; [ | exact Th].
    rewrite (split_no_space h Hh). reflexivity. }
  unfold authenticateToken. run. rewrite E. reflexivity.
Qed.

(** X2.  The middleware does not look at the scheme of the header: the token
    is the second of its space-separated pieces, whatever the first piece is
    and whatever follows the second.  A token that verifies and names a
    stored user is therefore let through under any scheme word. *)
Theorem scheme_is_not_checked (env : Env) (now : Z) (req : Request) (w : World)
    (scheme token tail : string) (claims : Claims) (u : User) :
  no_space scheme = true ->
  no_space token = true ->
  tail = "" \/ (exists t, tail = String " " t) ->
  JS.truthy (Some token) = true ->
  jwt_verify J token (JWT_SECRET env) now = Ok claims ->
  find_id (userId (payload claims)) (db w) = Some u ->
  fst (authenticateToken J pg_int env now
         (with_header req (scheme ++ " " ++ token ++ tail)) w)
  = Ok (Next (with_user (with_header req (scheme ++ " " ++ token ++ tail)) u)).
Proof.
  intros Hs Ht Htail Hne Hv Hu.
  rewrite (authenticateToken_verified J pg_int env now
             (with_header req (scheme ++ " " ++ token ++ tail)) w token claims
             (bearer_second_piece scheme token tail Hs Ht Htail) Hne Hv).
  cbn [fst]. rewrite Hu. reflexivity.
Qed.

Lemma jwt_verify_Ok (token : string) (secret : option string) (now : Z) (c : Claims) :
  jwt_verify J token secret now = Ok c ->
  jwt_decode J token = Some c
  /\ well_signed J token secret = true
  /\ past_expiry J token now = false.
Proof.
  unfold jwt_verify, well_signed, past_expiry.
  destruct (jwt_decode J token) as [c0 | ]; [ | discriminate].
  destruct (JS.truthy secret); [ | discriminate].
  destruct (jwt_sig_valid J token (JS.or_default secret "")); [ | discriminate].
  destruct (exp c0) as [e | ].
  - destruct (e <=? now); [discriminate | ]. intros H. injection H as <-. auto.
  - intros H. injection H as <-. auto.
Qed.

Lemma jwt_verify_Throw (token : string) (secret : option string) (now : Z) (e : Exn) :
  jwt_verify J token secret now = Throw e ->
  e = JsonWebTokenError \/ e = TokenExpiredError.
Proof.
  unfold jwt_verify.
  destruct (jwt_decode J token) as [c0 | ]; [ | intros H; injection H as <-; auto].
  destruct (JS.truthy secret); [ | intros H; injection H as <-; auto].
  destruct (jwt_sig_valid J token (JS.or_default secret ""));
    [ | intros H; injection H as <-; auto].
  destruct (exp c0) as [x | ]; [ | discriminate].
  destruct (x <=? now); [ | discriminate]. intros H; injection H as <-; auto.
Qed.

Lemma authenticateToken_thrown (env : Env) (now : Z) (req : Request) (w : World)
    (token : string) (e : Exn) :
  bearer (authorization req) = Some token ->
  JS.truthy (Some token) = true ->
  jwt_verify J token (JWT_SECRET env) now = Throw e ->
  authenticateToken J pg_int env now req w
  = (Ok (Respond (failure 401 (if (name e =? "JsonWebTokenError")%string
                               then "Invalid token" else "Token expired"))), w).
Proof.
  intros Hb Ht Hv. unfold authenticateToken. run. rewrite Hb, Ht. cbn [negb].
  rewrite (or_default_token _ Ht), Hv.
  destruct (jwt_verify_Throw _ _ _ _ Hv) as [-> | ->]; reflexivity.
Qed.

(** The four ways [authenticateToken] can go. *)
Lemma authenticateToken_cases (env : Env) (now : Z) (req : Request) (w : World) :
  (JS.truthy (bearer (authorization req)) = false
   /\ authenticateToken J pg_int env now req w
      = (Ok (Respond (failure 401 "Access token required")), w))
  \/ (exists token,
        bearer (authorization req) = Some token
        /\ well_signed J token (JWT_SECRET env) = false
        /\ authenticateToken J pg_int env now req w
           = (Ok (Respond (failure 401 "Invalid token")), w))
  \/ (exists token,
        bearer (authorization req) = Some token
        /\ well_signed J token (JWT_SECRET env) = true
        /\ past_expiry J token now = true
        /\ authenticateToken J pg_int env now req w
           = (Ok (Respond (failure 401 "Token expired")), w))
  \/ (exists token claims,
        bearer (authorization req) = Some token
        /\ JS.truthy (Some token) = true
        /\ jwt_verify J token (JWT_SECRET env) now = Ok claims
        /\ authenticateToken J pg_int env now req w
           = (Ok match find_id (userId (payload claims)) (db w) with
                 | Some u => Next (with_user req u)
                 | None => Respond (failure 401 "Invalid token - user not found")
                 end,
              mkWorld (db w) (next_id w) (draws w)
                      (log w ++ [CallFindByPk (PkNum (userId (payload claims)))]))).
Proof.
  destruct (JS.truthy (bearer (authorization req))) eqn:Tb.
  - right. destruct (bearer (authorization req)) as [token | ] eqn:Eb; [ | discriminate].
    destruct (jwt_verify J token (JWT_SECRET env) now) as [claims | e] eqn:Ev.
    + right. right. exists token, claims.
      split; [first [assumption | reflexivity]
             | split; [exact Tb | split; [first [assumption | reflexivity] | ]]].
      apply (authenticateToken_verified J pg_int env now req w token claims Eb Tb Ev).
    + pose proof (authenticateToken_thrown env now req w token e Eb Tb Ev) as Ha.
      destruct (well_signed J token (JWT_SECRET env)) eqn:Ws.
      * right. left. exists token.
        rewrite (well_signed_verify J token (JWT_SECRET env) now Ws) in Ev.
        destruct (jwt_decode J token) as [c | ] eqn:Ed.
        -- destruct (past_expiry J token now) eqn:Pe; [ | discriminate].
           injection Ev as <-.
           split; [first [assumption | reflexivity]
                  | split; [first [assumption | reflexivity]
                           | split; [first [assumption | reflexivity] | exact Ha]]].
        -- unfold well_signed in Ws. rewrite Ed in Ws. discriminate.
      * left. exists token.
        rewrite (not_well_signed_verify J token (JWT_SECRET env) now Ws) in Ev.
        injection Ev as <-.
        split; [first [assumption | reflexivity]
               | split; [first [assumption | reflexivity] | exact Ha]].
  - left. split; [reflexivity | ].
    unfold authenticateToken. run. rewrite Tb. reflexivity.
Qed.

(** X3.  A request is handed on only with a token that parses, carries the
    signature of the configured secret and has not expired, and only with,
    as [req.user], the row the table holds under the identifier of that
    token. *)
Theorem authenticateToken_sound (env : Env) (now : Z) (req req' : Request) (w : World) :
  fst (authenticateToken J pg_int env now req w) = Ok (Next req') ->
  exists token claims u,
    bearer (authorization req) = Some token
    /\ jwt_decode J token = Some claims
    /\ well_signed J token (JWT_SECRET env) = true
    /\ past_expiry J token now = false
    /\ find_id (userId (payload claims)) (db w) = Some u
    /\ req' = with_user req u.
Proof.
  intros H.
  destruct (authenticateToken_cases env now req w)
    as [[_ E] | [[t [_ [_ E]]] | [[t [_ [_ [_ E]]]] | [t [c [Hb [Ht [Hv E]]]]]]]];
    rewrite E in H; cbn [fst] in H; try discriminate.
  destruct (find_id (userId (payload c)) (db w)) as [u | ] eqn:Hu; [ | discriminate].
  injection H as <-.
  destruct (jwt_verify_Ok _ _ _ _ Hv) as [Hd [Hs He]].
  exists t, c, u. auto 10.
Qed.

(** X4.  Whatever the request, [authenticateToken] answers or hands on (it
    does not throw), leaves the table, the sequence and the salts alone, and
    asks the store at most once: one [findByPk], and none at all unless the
    token has verified. *)
Theorem authenticateToken_footprint (env : Env) (now : Z) (req : Request) (w : World) :
  let w' := snd (authenticateToken J pg_int env now req w) in
  (exists s, fst (authenticateToken J pg_int env now req w) = Ok s)
  /\ db w' = db w /\ next_id w' = next_id w /\ draws w' = draws w
  /\ (log w' = log w
      \/ exists token claims,
           bearer (authorization req) = Some token
           /\ jwt_verify J token (JWT_SECRET env) now = Ok claims
           /\ log w' = (log w ++ [CallFindByPk (PkNum (userId (payload claims)))])%list).
Proof.
  cbv zeta.
  destruct (authenticateToken_cases env now req w)
    as [[_ E] | [[t [_ [_ E]]] | [[t [_ [_ [_ E]]]] | [t [c [Hb [Ht [Hv E]]]]]]]];
    rewrite E; cbn [fst snd db next_id draws log].
  1-3: (split; [eexists; reflexivity | ]); auto.
  split; [eexists; reflexivity | ].
  split; [reflexivity | split; [reflexivity | split; [reflexivity | ]]].
  right. exists t, c. auto.
Qed.

End TokenMiddleware.

(** Run of [authenticateToken_without_token]: the header "Bearer" alone. *)
Lemma authenticateToken_without_token_witness :
  Ref.authenticateToken Ref.env 101 (mkRequest (Some "Bearer") Ref.no_body "" None)
    Ref.world0
  = (Ok (Respond (failure 401 "Access token required")), Ref.world0).
Proof.
  apply (authenticateToken_without_token Ref.jwt Ref.pg_int Ref.env 101
           (mkRequest (Some "Bearer") Ref.no_body "" None) Ref.world0).
  right. exists "Bearer". split; reflexivity.
Defined.

(** Run of [scheme_is_not_checked]: alice's token after the word "Basic" and
    before some more text. *)
Lemma scheme_is_not_checked_witness :
  fst (Ref.authenticateToken Ref.env 101
         (with_header (mkRequest None Ref.no_body "" None)
            ("Basic" ++ " " ++ Ref.alice_token ++ " and more")) Ref.world0)
  = Ok (Next (with_user
                (with_header (mkRequest None Ref.no_body "" None)
                   ("Basic" ++ " " ++ Ref.alice_token ++ " and more"))
                Ref.alice)).
Proof.
  apply (scheme_is_not_checked Ref.jwt Ref.pg_int Ref.env 101
           (mkRequest None Ref.no_body "" None) Ref.world0
           "Basic" Ref.alice_token " and more"
           (mkClaims (mkPayload 1 "alice@x.com" "patient") 100 (Some 604900))
           Ref.alice);
    try reflexivity.
  right. exists "and more". reflexivity.
Defined.

(** Run of [authenticateToken_sound]: the request alice's token opens. *)
Lemma authenticateToken_sound_witness :
  exists token claims u,
    bearer (authorization (Ref.with_token Ref.alice_token)) = Some token
    /\ jwt_decode Ref.jwt token = Some claims
    /\ well_signed Ref.jwt token (JWT_SECRET Ref.env) = true
    /\ past_expiry Ref.jwt token 101 = false
    /\ find_id (userId (payload claims)) (db Ref.world0) = Some u
    /\ with_user (Ref.with_token Ref.alice_token) Ref.alice
       = with_user (Ref.with_token Ref.alice_token) u.
Proof.
  apply (authenticateToken_sound Ref.jwt Ref.pg_int Ref.env 101
           (Ref.with_token Ref.alice_token)
           (with_user (Ref.with_token Ref.alice_token) Ref.alice) Ref.world0).
  reflexivity.
Defined.

(* ===================================================================== *)
(** ** Further properties: deleting users *)
(* ===================================================================== *)

Lemma find_id_Some (n : Z) (rows : list User) (u : User) :
  find_id n rows = Some u -> id u = n /\ In u rows.
Proof.
  unfold find_id. intros H. apply find_some in H. destruct H as [Hin He].
  apply Z.eqb_eq in He. auto.
Qed.

Lemma find_id_removed (n : Z) (rows : list User) :
  find_id n (filter (fun r => negb (id r =? n)) rows) = None.
Proof.
  unfold find_id. induction rows as [ | r rows IH]; [reflexivity | ].
  cbn [filter]. destruct (id r =? n) eqn:E; cbn [negb]; [exact IH | ].
  cbn [find]. rewrite E. exact IH.
Qed.

Lemma find_id_kept (m n : Z) (rows : list User) :
  m <> n ->
  find_id m (filter (fun r => negb (id r =? n)) rows) = find_id m rows.
Proof.
  intros Hmn. unfold find_id. induction rows as [ | r rows IH]; [reflexivity | ].
  cbn [filter find]. destruct (id r =? n) eqn:E; cbn [negb].
  - apply Z.eqb_eq in E. destruct (id r =? m) eqn:E'; [ | exact IH].
    apply Z.eqb_eq in E'. lia.
  - cbn [find]. destruct (id r =? m); [reflexivity | exact IH].
Qed.

Section Delete.

Variable pg_int : string -> option Z.

(** [deleteUser], branch by branch. *)
Lemma deleteUser_run (req : Request) (w : World) :
  deleteUser pg_int req w
  = match user req with
    | None => (Ok internal_error, w)
    | Some me =>
        if JS.parseInt_is (params_userId req) (id me)
        then (Ok (failure 400 "Cannot delete your own account"), w)
        else
          match pg_int (params_userId req) with
          | None => (Ok internal_error, looked_up req w)
          | Some n =>
              match find_id n (db w) with
              | None => (Ok (failure 404 "User not found"), looked_up req w)
              | Some u =>
                  (Ok (mkResponse 200 true (Some "User deleted successfully") None None),
                   mkWorld (filter (fun r => negb (id r =? id u)) (db w))
                           (next_id w) (draws w)
                           ((log w ++ [CallFindByPk (PkStr (params_userId req))])
                              ++ [CallDestroy (id u)]))
              end
          end
    end.
Proof.
  unfold deleteUser. run. destruct (user req) as [me | ]; [ | reflexivity].
  cbn beta iota. destruct (JS.parseInt_is (params_userId req) (id me)); [reflexivity | ].
  unfold User_findByPk. run. destruct (pg_int (params_userId req)) as [n | ];
    [ | reflexivity].
  cbn [db]. destruct (find_id n (db w)) as [u | ]; reflexivity.
Qed.

(** X5.  A delete request of an admin for a stored user other than, by
    [parseInt], the admin is answered 200; afterwards the key of the target
    finds no row, and every other key finds the row it found before. *)
Theorem deleteUser_removes_target (req : Request) (w : World) (me u : User) (n : Z) :
  user req = Some me ->
  JS.parseInt_is (params_userId req) (id me) = false ->
  pg_int (params_userId req) = Some n ->
  find_id n (db w) = Some u ->
  fst (deleteUser pg_int req w)
  = Ok (mkResponse 200 true (Some "User deleted successfully") None None)
  /\ find_id n (db (snd (deleteUser pg_int req w))) = None
  /\ (forall m, m <> n ->
        find_id m (db (snd (deleteUser pg_int req w))) = find_id m (db w)).
Proof.
  intros Hme Hself Hpg Hu. rewrite deleteUser_run, Hme, Hself, Hpg, Hu.
  cbn [fst snd db]. destruct (find_id_Some _ _ _ Hu) as [-> _].
  split; [reflexivity | split].
  - apply find_id_removed.
  - intros m Hm. apply find_id_kept. exact Hm.
Qed.

(** X6.  [deleteUser] always answers.  Unless the answer is the 200 of a
    deletion, the table is as it was.  A request that did not pass through
    the token middleware (no [req.user]) is answered 500.  Where the
    self-deletion guard does not fire ([parseInt] of the parameter is not
    the admin's key), a parameter the database cannot read as a key is
    answered 500 and a key that finds no row 404.  Where the guard fires,
    the answer is 400 before the database is asked: also for a parameter
    the database could not have read, and for a key with no row. *)
Theorem deleteUser_failures (req : Request) (w : World) :
  (exists r, fst (deleteUser pg_int req w) = Ok r
             /\ (status r = 200 \/ db (snd (deleteUser pg_int req w)) = db w))
  /\ (user req = None -> deleteUser pg_int req w = (Ok internal_error, w))
  /\ (forall me,
        user req = Some me ->
        JS.parseInt_is (params_userId req) (id me) = false ->
        pg_int (params_userId req) = None ->
        fst (deleteUser pg_int req w) = Ok internal_error)
  /\ (forall me n,
        user req = Some me ->
        JS.parseInt_is (params_userId req) (id me) = false ->
        pg_int (params_userId req) = Some n ->
        find_id n (db w) = None ->
        fst (deleteUser pg_int req w) = Ok (failure 404 "User not found"))
  /\ (forall me,
        user req = Some me ->
        JS.parseInt_is (params_userId req) (id me) = true ->
        deleteUser pg_int req w
        = (Ok (failure 400 "Cannot delete your own account"), w)).
Proof.
  rewrite deleteUser_run. split; [ | split; [ | split; [ | split]]].
  - destruct (user req) as [me | ]; [ | eexists; split; [reflexivity | now right]].
    destruct (JS.parseInt_is (params_userId req) (id me));
      [eexists; split; [reflexivity | now right] | ].
    destruct (pg_int (params_userId req)) as [n | ];
      [ | eexists; split; [reflexivity | now right]].
    destruct (find_id n (db w)) as [u | ];
      eexists; (split; [reflexivity | ]); [now left | now right].
  - intros ->. reflexivity.
  - intros me -> -> ->. reflexivity.
  - intros me n -> -> -> ->. reflexivity.
  - intros me -> ->. reflexivity.
Qed.

(** X7.  When the database reads the parameter as the integer [parseInt]
    reads it as, [deleteUser] never removes the row of the admin who asks:
    the admin's key finds after the call what it found before. *)
Theorem deleteUser_spares_admin (req : Request) (w : World) (me : User) :
  user req = Some me ->
  (forall n, pg_int (params_userId req) = Some n ->
             JS.parseInt (params_userId req) = Some n) ->
  find_id (id me) (db (snd (deleteUser pg_int req w))) = find_id (id me) (db w).
Proof.
  intros Hme Hagree. rewrite deleteUser_run, Hme.
  destruct (JS.parseInt_is (params_userId req) (id me)) eqn:Hself; [reflexivity | ].
  destruct (pg_int (params_userId req)) as [n | ] eqn:Hpg; [ | reflexivity].
  destruct (find_id n (db w)) as [u | ] eqn:Hu; [ | reflexivity].
  cbn [snd db]. destruct (find_id_Some _ _ _ Hu) as [-> _].
  apply find_id_kept. intros E.
  unfold JS.parseInt_is in Hself. rewrite (Hagree _ eq_refl) in Hself.
  rewrite <- E, Z.eqb_refl in Hself. discriminate.
Qed.

End Delete.

(** Run of [deleteUser_removes_target]: root deletes alice. *)
Lemma deleteUser_removes_target_witness :
  fst (Ref.deleteUser (RefMore.about "1" Ref.root) Ref.world0)
  = Ok (mkResponse 200 true (Some "User deleted successfully") None None)
  /\ find_id 1 (db (snd (Ref.deleteUser (RefMore.about "1" Ref.root) Ref.world0))) = None
  /\ (forall m, m <> 1 ->
        find_id m (db (snd (Ref.deleteUser (RefMore.about "1" Ref.root) Ref.world0)))
        = find_id m (db Ref.world0)).
Proof.
  apply (deleteUser_removes_target Ref.pg_int (RefMore.about "1" Ref.root) Ref.world0
           Ref.root Ref.alice 1); reflexivity.
Defined.

(** Run of [deleteUser_failures]: no such key, a parameter that is no key,
    and the admin's own key followed by letters. *)
Lemma deleteUser_failures_witness :
  fst (Ref.deleteUser (RefMore.about "7" Ref.root) Ref.world0)
  = Ok (failure 404 "User not found")
  /\ fst (Ref.deleteUser (RefMore.about "x" Ref.root) Ref.world0) = Ok internal_error
  /\ Ref.deleteUser (RefMore.about "2abc" Ref.root) Ref.world0
     = (Ok (failure 400 "Cannot delete your own account"), Ref.world0).
Proof.
  split; [ | split].
  - apply (proj1 (proj2 (proj2 (proj2 (deleteUser_failures Ref.pg_int
                                         (RefMore.about "7" Ref.root) Ref.world0))))
             Ref.root 7); reflexivity.
  - apply (proj1 (proj2 (proj2 (deleteUser_failures Ref.pg_int
                                  (RefMore.about "x" Ref.root) Ref.world0)))
             Ref.root); reflexivity.
  - apply (proj2 (proj2 (proj2 (proj2 (deleteUser_failures Ref.pg_int
                                         (RefMore.about "2abc" Ref.root) Ref.world0))))
             Ref.root); reflexivity.
Defined.

(** Run of [deleteUser_spares_admin]: root's row after root deleted alice. *)
Lemma deleteUser_spares_admin_witness :
  find_id 2 (db (snd (Ref.deleteUser (RefMore.about "1" Ref.root) Ref.world0)))
  = find_id 2 (db Ref.world0).
Proof.
  apply (deleteUser_spares_admin Ref.pg_int (RefMore.about "1" Ref.root) Ref.world0
           Ref.root); [reflexivity | ].
  intros n H. vm_compute in H. injection H as <-. reflexivity.
Defined.

Section DeleteRoute.

Variable J : JwtLib.
Variable pg_int : string -> option Z.

Lemma includes_admin (r : string) : JS.includes ["admin"] r = true -> r = "admin".
Proof.
  intros H. apply includes_In in H. cbn [In] in H. destruct H as [<- | []]. reflexivity.
Qed.

(** X8.  On the route DELETE /users/:userId the table changes only for a
    request whose token verifies and names a stored user with the role
    "admin"; for every other request it is left as it was. *)
Theorem delete_route_admin_only (env : Env) (now : Z) (req : Request) (w : World) :
  db (snd (delete_user_route J pg_int env now req w)) = db w
  \/ exists token claims u,
       bearer (authorization req) = Some token
       /\ jwt_verify J token (JWT_SECRET env) now = Ok claims
       /\ find_id (userId (payload claims)) (db w) = Some u
       /\ role (attrs u) = "admin".
Proof.
  unfold delete_user_route, guarded. run.
  destruct (authenticateToken_cases J pg_int env now req w)
    as [[_ E] | [[t [_ [_ E]]] | [[t [_ [_ [_ E]]]] | [t [c [Hb [Ht [Hv E]]]]]]]];
    rewrite E; cbn beta iota; try (left; reflexivity).
  destruct (find_id (userId (payload c)) (db w)) as [u | ] eqn:Hu;
    [ | left; reflexivity].
  unfold requireAdmin, requireRole. cbn [with_user user].
  destruct (JS.includes ["admin"] (role (attrs u))) eqn:Hr; cbn [negb handle];
    [ | left; reflexivity].
  right. exists t, c, u. auto using includes_admin.
Qed.

(** X9.  Deleting a user shuts out the tokens issued to that user: once
    [deleteUser] has removed the row of key [n], a token that verifies and
    carries [n] is answered 401 "Invalid token - user not found". *)
Theorem deletion_revokes_tokens (env : Env) (now : Z) (req holder : Request) (w : World)
    (me u : User) (n : Z) (token : string) (claims : Claims) :
  user req = Some me ->
  JS.parseInt_is (params_userId req) (id me) = false ->
  pg_int (params_userId req) = Some n ->
  find_id n (db w) = Some u ->
  bearer (authorization holder) = Some token ->
  JS.truthy (Some token) = true ->
  jwt_verify J token (JWT_SECRET env) now = Ok claims ->
  userId (payload claims) = n ->
  fst (authenticateToken J pg_int env now holder (snd (deleteUser pg_int req w)))
  = Ok (Respond (failure 401 "Invalid token - user not found")).
Proof.
  intros Hme Hself Hpg Hu Hb Ht Hv Hn.
  rewrite (authenticateToken_verified J pg_int env now holder _ token claims Hb Ht Hv).
  cbn [fst]. rewrite Hn.
  rewrite deleteUser_run, Hme, Hself, Hpg, Hu. cbn [snd db].
  destruct (find_id_Some _ _ _ Hu) as [-> _]. rewrite find_id_removed. reflexivity.
Qed.

End DeleteRoute.

(** Run of [deletion_revokes_tokens]: alice's token after root deleted her. *)
Lemma deletion_revokes_tokens_witness :
  fst (Ref.authenticateToken Ref.env 101 (Ref.with_token Ref.alice_token)
         (snd (Ref.deleteUser (RefMore.about "1" Ref.root) Ref.world0)))
  = Ok (Respond (failure 401 "Invalid token - user not found")).
Proof.
  apply (deletion_revokes_tokens Ref.jwt Ref.pg_int Ref.env 101
           (RefMore.about "1" Ref.root) (Ref.with_token Ref.alice_token) Ref.world0
           Ref.root Ref.alice 1 Ref.alice_token
           (mkClaims (mkPayload 1 "alice@x.com" "patient") 100 (Some 604900)));
    reflexivity.
Defined.

(* ===================================================================== *)
(** ** Further properties: registration and login *)
(* ===================================================================== *)

Lemma check_nil (ok : bool) (m p : string) : check ok m p = [] -> ok = true.
Proof.
  destruct ok; [reflexivity | discriminate].
Qed.

Lemma validate_nil (isEmail : string -> bool) (a : Attrs) :
  validate isEmail a = [] ->
  len_between 3 50 (username a) = true
  /\ isEmail (email a) = true
  /\ len_between 6 100 (password a) = true
  /\ role_ok (role a) = true.
Proof.
  unfold validate. intros H.
  apply app_eq_nil in H. destruct H as [H1 H].
  apply app_eq_nil in H. destruct H as [H2 H].
  apply app_eq_nil in H. destruct H as [H3 H4].
  apply check_nil in H1, H2, H3, H4. auto.
Qed.

Lemma len_truthy (lo hi : nat) (s : string) :
  (0 < lo)%nat -> len_between lo hi s = true -> JS.truthy (Some s) = true.
Proof.
  intros Hlo H. destruct s; [ | reflexivity].
  unfold len_between in H. apply andb_prop in H. destruct H as [H _].
  apply Nat.leb_le in H. cbn [String.length] in H. lia.
Qed.

Section RegisterMore.

Variable B : BcryptLib.
Variable J : JwtLib.
Variable isEmail : string -> bool.
Variable entropy : nat -> Salt B.

(** [generateToken] throws nothing but the library's plain error. *)
Lemma generateToken_throws (env : Env) (now : Z) (u : User) (e : Exn) :
  generateToken J env now u = Throw e -> e = PlainError.
Proof.
  unfold generateToken, jwt_sign. destruct (JS.truthy (JWT_SECRET env)).
  - destruct (jwt_timespan J (JS.or_default (JWT_EXPIRES_IN env) "7d"));
      [discriminate | ]. intros H. now injection H.
  - intros H. now injection H.
Qed.

(** [register] on a body with the three fields, branch by branch. *)
Lemma register_run (env : Env) (now : Z) (req : Request) (w : World) :
  JS.truthy (b_username (body req)) = true ->
  JS.truthy (b_email (body req)) = true ->
  JS.truthy (b_password (body req)) = true ->
  let a := registration (body req) in
  let created := mkUser (next_id w)
                   (stored a (bcrypt_hash B (password a) (entropy (draws w)))) in
  let called := (log w ++ [CallCreate])%list in
  register B J isEmail entropy env now req w
  = match validate isEmail a with
    | [] =>
        if username_taken (username a) (db w) then
          (Ok (failure 400 "username already exists"),
           mkWorld (db w) (next_id w + 1) (S (draws w)) called)
        else if email_taken (email a) (db w) then
          (Ok (failure 400 "email already exists"),
           mkWorld (db w) (next_id w + 1) (S (draws w)) called)
        else
          (Ok match generateToken J env now created with
              | Ok token =>
                  mkResponse 201 true (Some "User registered successfully") None
                    (Some (DataUserToken (toJSON created) token))
              | Throw _ => internal_error
              end,
           mkWorld (db w ++ [created]) (next_id w + 1) (S (draws w)) called)
    | items =>
        (Ok (mkResponse 400 false (Some "Validation failed")
               (Some (map message items)) None),
         mkWorld (db w) (next_id w) (draws w) called)
    end.
Proof.
  intros Hu He Hp. cbv zeta. unfold register. run. rewrite Hu, He, Hp. cbn [negb orb].
  destruct (validate isEmail (registration (body req))) as [ | item items] eqn:Hv.
  - rewrite (User_create_valid B isEmail entropy _ w Hv (truthy_password _ Hp)).
    unfold insert. cbn [username email db next_id draws log].
    destruct (username_taken _ (db w)); [reflexivity | ].
    destruct (email_taken _ (db w)); [reflexivity | ].
    unfold stored.
    destruct (generateToken J env now _) as [token | e] eqn:Hg; [reflexivity | ].
    rewrite (generateToken_throws _ _ _ _ Hg). reflexivity.
  - unfold User_create. run. rewrite Hv. reflexivity.
Qed.

End RegisterMore.

Lemma taken_username_In (n : string) (rows : list User) :
  username_taken n rows = false -> ~ In n (map (fun u => username (attrs u)) rows).
Proof.
  unfold username_taken. induction rows as [ | r rows IH]; [intros _ [] | ].
  cbn [existsb map In]. intros H. apply orb_false_elim in H. destruct H as [Hr Hrows].
  intros [E | Hin]; [ | exact (IH Hrows Hin)].
  rewrite E, String.eqb_refl in Hr. discriminate.
Qed.

Lemma taken_email_In (e : string) (rows : list User) :
  email_taken e rows = false -> ~ In e (map (fun u => email (attrs u)) rows).
Proof.
  unfold email_taken. induction rows as [ | r rows IH]; [intros _ [] | ].
  cbn [existsb map In]. intros H. apply orb_false_elim in H. destruct H as [Hr Hrows].
  intros [E | Hin]; [ | exact (IH Hrows Hin)].
  rewrite E, String.eqb_refl in Hr. discriminate.
Qed.

Lemma email_free_find (e : string) (rows : list User) :
  email_taken e rows = false ->
  find (fun u => (email (attrs u) =? e)%string) rows = None.
Proof.
  unfold email_taken. induction rows as [ | r rows IH]; [reflexivity | ].
  cbn [existsb find]. intros H. apply orb_false_elim in H. destruct H as [Hr Hrows].
  rewrite Hr. exact (IH Hrows).
Qed.

Lemma find_snoc {A : Type} (f : A -> bool) (l : list A) (x : A) :
  find f l = None -> find f (l ++ [x]) = if f x then Some x else None.
Proof.
  induction l as [ | y l IH]; [reflexivity | ].
  cbn [find app]. destruct (f y); [discriminate | exact IH].
Qed.

Lemma NoDup_snoc {A : Type} (l : list A) (x : A) :
  NoDup l -> ~ In x l -> NoDup (l ++ [x]).
Proof.
  induction l as [ | y l IH]; intros Hl Hx.
  - constructor; [intros [] | constructor].
  - cbn [app]. inversion Hl as [ | ? ? Hy Hl']; subst. constructor.
    + rewrite in_app_iff. intros [Hin | [E | []]]; [exact (Hy Hin) | ].
      apply Hx. left. symmetry. exact E.
    + apply IH; [exact Hl' | ]. intros Hin. apply Hx. right. exact Hin.
Qed.

(** The table stays in order when a row that went through validation and
    the unique indexes is appended under the next key. *)
Lemma table_ok_insert (w : World) (a : Attrs) (n : nat) (l : list OrmCall) :
  table_ok w ->
  role_ok (role a) = true ->
  username_taken (username a) (db w) = false ->
  email_taken (email a) (db w) = false ->
  table_ok (mkWorld (db w ++ [mkUser (next_id w) a]) (next_id w + 1) n l).
Proof.
  intros [Hi Hb Hu He Hr] Hrole Hfu Hfe. constructor; cbn [db next_id].
  - rewrite map_app. apply NoDup_snoc; [exact Hi | ]. cbn [map id].
    intros Hin. apply in_map_iff in Hin. destruct Hin as [u [E Hin]].
    rewrite Forall_forall in Hb. specialize (Hb u Hin). lia.
  - apply Forall_app. split.
    + apply (Forall_impl _ (P := fun u => id u < next_id w)); [ | exact Hb].
      intros u H. lia.
    + constructor; [cbn [id]; lia | constructor].
  - rewrite map_app. apply NoDup_snoc; [exact Hu | ]. apply taken_username_In, Hfu.
  - rewrite map_app. apply NoDup_snoc; [exact He | ]. apply taken_email_In, Hfe.
  - apply Forall_app. split; [exact Hr | ]. constructor; [exact Hrole | constructor].
Qed.

(** Nor does it matter to the table that a key was taken from the sequence,
    a salt drawn or a call traced. *)
Lemma table_ok_same_rows (w : World) (k : Z) (n : nat) (l : list OrmCall) :
  table_ok w -> next_id w <= k -> table_ok (mkWorld (db w) k n l).
Proof.
  intros [Hi Hb Hu He Hr] Hk. constructor; cbn [db next_id]; try assumption.
  apply (Forall_impl _ (P := fun u => id u < next_id w)); [ | exact Hb].
  intros u H. lia.
Qed.

Section RegisterProperties.

Variable B : BcryptLib.
Variable J : JwtLib.
Variable isEmail : string -> bool.
Variable entropy : nat -> Salt B.

(** X10.  A registration whose fields are there but do not all pass the
    model's validators is answered 400 "Validation failed" with the messages
    of the validators that failed, in the order of the attributes; the table
    is untouched, no key is taken from the sequence and no salt is drawn. *)
Theorem register_validation_failure (env : Env) (now : Z) (req : Request) (w : World) :
  JS.truthy (b_username (body req)) = true ->
  JS.truthy (b_email (body req)) = true ->
  JS.truthy (b_password (body req)) = true ->
  validate isEmail (registration (body req)) <> [] ->
  register B J isEmail entropy env now req w
  = (Ok (mkResponse 400 false (Some "Validation failed")
           (Some (map message (validate isEmail (registration (body req))))) None),
     mkWorld (db w) (next_id w) (draws w) (log w ++ [CallCreate])).
Proof.
  intros Hu He Hp Hv. rewrite (register_run B J isEmail entropy env now req w Hu He Hp).
  destruct (validate isEmail (registration (body req))); [now contradiction Hv | ].
  reflexivity.
Qed.



Lemma register_missing (env : Env) (now : Z) (req : Request) (w : World) :
  (JS.truthy (b_username (body req)) && JS.truthy (b_email (body req))
   && JS.truthy (b_password (body req)))%bool = false ->
  register B J isEmail entropy env now req w
  = (Ok (failure 400 "Username, email, and password are required"), w).
Proof.
  intros H. unfold register. run.
  destruct (JS.truthy (b_username (body req))), (JS.truthy (b_email (body req))),
           (JS.truthy (b_password (body req))); try reflexivity; discriminate H.
Qed.

(** X14.  [register] keeps the table in order: whatever the request, if
    keys, usernames and emails were distinct, keys below the sequence and
    roles among the three before the call, they are so after it. *)
Theorem register_keeps_table_ok (env : Env) (now : Z) (req : Request) (w : World) :
  table_ok w -> table_ok (snd (register B J isEmail entropy env now req w)).
Proof.
  intros Hok.
  destruct (JS.truthy (b_username (body req))) eqn:Hu;
    [destruct (JS.truthy (b_email (body req))) eqn:He;
       [destruct (JS.truthy (b_password (body req))) eqn:Hp | ] | ].
  - rewrite (register_run B J isEmail entropy env now req w Hu He Hp).
    destruct (validate isEmail (registration (body req))) as [ | item items] eqn:Hv.
    + destruct (validate_nil _ _ Hv) as (_ & _ & _ & Hrole).
      destruct (username_taken _ (db w)) eqn:Hfu;
        [apply table_ok_same_rows; [exact Hok | lia] | ].
      destruct (email_taken _ (db w)) eqn:Hfe;
        [apply table_ok_same_rows; [exact Hok | lia] | ].
      cbn [snd]. apply table_ok_insert; assumption.
    + apply table_ok_same_rows; [exact Hok | lia].
  - rewrite register_missing; [exact Hok | rewrite Hu, He, Hp; reflexivity].
  - rewrite register_missing; [exact Hok | rewrite Hu, He; reflexivity].
  - rewrite register_missing; [exact Hok | rewrite Hu; reflexivity].
Qed.

End RegisterProperties.

Lemma find_id_unique (rows : list User) (u : User) :
  NoDup (map id rows) -> In u rows -> find_id (id u) rows = Some u.
Proof.
  unfold find_id. induction rows as [ | r rows IH]; [intros _ [] | ].
  cbn [map find In]. intros Hnd Hin. inversion Hnd as [ | ? ? Hr Hnd']; subst.
  destruct Hin as [-> | Hin]; [rewrite Z.eqb_refl; reflexivity | ].
  destruct (id r =? id u) eqn:E; [ | exact (IH Hnd' Hin)].
  apply Z.eqb_eq in E. exfalso. apply Hr. rewrite E. apply in_map. exact Hin.
Qed.

Section LoginProperties.

Variable B : BcryptLib.
Variable J : JwtLib.

(** [login], branch by branch. *)
Lemma login_run (env : Env) (now : Z) (req : Request) (w : World) :
  let e := JS.or_default (b_email (body req)) "" in
  let pw := JS.or_default (b_password (body req)) "" in
  login B J env now req w
  = if (JS.truthy (b_email (body req)) && JS.truthy (b_password (body req)))%bool
    then
      (Ok match find (fun u => (email (attrs u) =? e)%string) (db w) with
          | None => invalid_credentials
          | Some u =>
              if validatePassword B u pw
              then match generateToken J env now u with
                   | Ok token =>
                       mkResponse 200 true (Some "Login successful") None
                         (Some (DataUserToken (toJSON u) token))
                   | Throw _ => internal_error
                   end
              else invalid_credentials
          end,
       mkWorld (db w) (next_id w) (draws w) (log w ++ [CallFindOne e]))
    else (Ok (failure 400 "Email and password are required"), w).
Proof.
  cbv zeta. unfold login. run.
  destruct (JS.truthy (b_email (body req))), (JS.truthy (b_password (body req)));
    cbn [negb orb andb]; try reflexivity.
  unfold User_findOne. run. cbn [db].
  destruct (find _ (db w)) as [u | ]; [ | reflexivity]. cbn beta iota.
  destruct (validatePassword B u _); cbn [negb]; [ | reflexivity].
  destruct (generateToken J env now u); reflexivity.
Qed.

(** X15.  [login] never writes: whatever the request, it answers (with
    status 200, 400, 401 or 500), the table, the sequence and the salts are
    as before, and the store was asked at most one [findOne]. *)
Theorem login_never_writes (env : Env) (now : Z) (req : Request) (w : World) :
  let w' := snd (login B J env now req w) in
  (exists r, fst (login B J env now req w) = Ok r /\ In (status r) [200; 400; 401; 500])
  /\ db w' = db w /\ next_id w' = next_id w /\ draws w' = draws w
  /\ (log w' = log w \/ exists e, log w' = (log w ++ [CallFindOne e])%list).
Proof.
  cbv zeta. rewrite login_run.
  destruct (JS.truthy (b_email (body req)) && JS.truthy (b_password (body req)))%bool;
    cbn [fst snd db next_id draws log].
  - split; [ | split; [reflexivity | split; [reflexivity | split; [reflexivity | ]]]].
    + destruct (find _ (db w)) as [u | ];
        [ | eexists; split; [reflexivity | cbn; auto]].
      destruct (validatePassword B u _); [ | eexists; split; [reflexivity | cbn; auto]].
      destruct (generateToken J env now u);
        eexists; (split; [reflexivity | cbn; auto]).
    + right. eexists. reflexivity.
  - split; [eexists; split; [reflexivity | cbn; auto] | auto].
Qed.

(** X16.  [login] answers 200 only for the email of a stored user and a
    password that [validatePassword] accepts for that user; the answer then
    carries that user's public data and the token [generateToken] made for
    that user. *)
Theorem login_sound (env : Env) (now : Z) (req : Request) (w : World) (r : Response) :
  fst (login B J env now req w) = Ok r ->
  status r = 200 ->
  exists u token,
    find (fun x => (email (attrs x) =? JS.or_default (b_email (body req)) "")%string)
         (db w) = Some u
    /\ validatePassword B u (JS.or_default (b_password (body req)) "") = true
    /\ generateToken J env now u = Ok token
    /\ r = mkResponse 200 true (Some "Login successful") None
             (Some (DataUserToken (toJSON u) token)).
Proof.
  rewrite login_run.
  destruct (JS.truthy (b_email (body req)) && JS.truthy (b_password (body req)))%bool;
    cbn [fst]; [ | intros H; injection H as <-; discriminate].
  destruct (find _ (db w)) as [u | ]; [ | intros H; injection H as <-; discriminate].
  destruct (validatePassword B u _) eqn:Hv; [ | intros H; injection H as <-; discriminate].
  destruct (generateToken J env now u) as [token | e] eqn:Hg;
    [ | intros H; injection H as <-; discriminate].
  intros H _. injection H as <-. exists u, token. auto.
Qed.

Variable isEmail : string -> bool.
Variable entropy : nat -> Salt B.
Hypothesis B_ok : BcryptSpec B.

(** X13.  Register, then log in.  After a registration that succeeded, a
    login with the same email and password is answered 200 "Login
    successful" with the public data of the account just created. *)
Theorem register_then_login (env : Env) (now now' life : Z) (req req' : Request)
    (w : World) :
  JS.truthy (b_username (body req)) = true ->
  JS.truthy (b_email (body req)) = true ->
  JS.truthy (b_password (body req)) = true ->
  validate isEmail (registration (body req)) = [] ->
  username_taken (username (registration (body req))) (db w) = false ->
  email_taken (email (registration (body req))) (db w) = false ->
  JS.truthy (JWT_SECRET env) = true ->
  jwt_timespan J (JS.or_default (JWT_EXPIRES_IN env) "7d") = Some life ->
  b_email (body req') = b_email (body req) ->
  b_password (body req') = b_password (body req) ->
  exists created token token',
    fst (register B J isEmail entropy env now req w)
    = Ok (mkResponse 201 true (Some "User registered successfully") None
            (Some (DataUserToken (toJSON created) token)))
    /\ fst (login B J env now' req' (snd (register B J isEmail entropy env now req w)))
       = Ok (mkResponse 200 true (Some "Login successful") None
               (Some (DataUserToken (toJSON created) token'))).
Proof.
  intros Hu He Hp Hv Hfu Hfe Hs Hl Ee Ep.
  rewrite (register_run B J isEmail entropy env now req w Hu He Hp), Hv, Hfu, Hfe.
  cbn [fst snd]. rewrite login_run. rewrite Ee, Ep, He, Hp. cbn [andb fst db].
  unfold generateToken, jwt_sign. rewrite Hs, Hl.
  eexists. eexists. eexists. split; [reflexivity | ].
  rewrite (find_snoc _ _ _ (email_free_find _ _ Hfe)).
  cbn [attrs stored email registration]. rewrite String.eqb_refl.
  unfold validatePassword. cbn [attrs stored password registration].
  rewrite (compare_hash B B_ok), String.eqb_refl. reflexivity.
Qed.

End LoginProperties.

Lemma bearer_of_Bearer (token : string) :
  no_space token = true -> bearer (Some ("Bearer " ++ token)) = Some token.
Proof.
  intros H.
  rewrite <- (bearer_second_piece "Bearer" token "" eq_refl H (or_introl eq_refl)).
  rewrite append_nil_r. reflexivity.
Qed.

Section Session.

Variable B : BcryptLib.
Variable J : JwtLib.
Variable pg_int : string -> option Z.
Hypothesis J_ok : JwtSpec J.

(** X17.  Log in, then use the token.  On a table with distinct keys, the
    token a successful login hands out opens, before its expiry, the
    middleware for the very user who logged in (provided the token, as
    every JWT, is a non-empty string with no space in it). *)
Theorem login_token_authenticates (env : Env) (now now' life : Z) (req holder : Request)
    (w : World) (u : User) :
  table_ok w ->
  JS.truthy (b_email (body req)) = true ->
  JS.truthy (b_password (body req)) = true ->
  find (fun x => (email (attrs x) =? JS.or_default (b_email (body req)) "")%string)
       (db w) = Some u ->
  validatePassword B u (JS.or_default (b_password (body req)) "") = true ->
  JS.truthy (JWT_SECRET env) = true ->
  jwt_timespan J (JS.or_default (JWT_EXPIRES_IN env) "7d") = Some life ->
  now' < now + life ->
  exists token,
    fst (login B J env now req w)
    = Ok (mkResponse 200 true (Some "Login successful") None
            (Some (DataUserToken (toJSON u) token)))
    /\ (no_space token = true ->
        JS.truthy (Some token) = true ->
        fst (authenticateToken J pg_int env now'
               (with_header holder ("Bearer " ++ token))
               (snd (login B J env now req w)))
        = Ok (Next (with_user (with_header holder ("Bearer " ++ token)) u))).
Proof.
  intros Hok He Hp Hf Hv Hs Hl Hnow.
  rewrite login_run, He, Hp, Hf, Hv. cbn [andb fst snd].
  unfold generateToken, jwt_sign. rewrite Hs, Hl.
  set (c := mkClaims (mkPayload (id u) (email (attrs u)) (role (attrs u)))
                     now (Some (now + life))).
  set (token := jwt_encode J c (JS.or_default (JWT_SECRET env) "")).
  exists token. split; [reflexivity | ]. intros Hns Hne.
  rewrite (authenticateToken_verified J pg_int env now'
             (with_header holder ("Bearer " ++ token))
             (mkWorld (db w) (next_id w) (draws w)
                (log w ++ [CallFindOne (JS.or_default (b_email (body req)) "")]))
             token c (bearer_of_Bearer token Hns) Hne
             (verify_encode J J_ok c (JWT_SECRET env) now' (now + life) Hs eq_refl Hnow)).
  cbn [fst db payload userId c].
  apply find_some in Hf. destruct Hf as [Hin _].
  rewrite (find_id_unique _ _ (ids_unique w Hok) Hin). reflexivity.
Qed.

End Session.

Section Profile.

Variable J : JwtLib.
Variable pg_int : string -> option Z.

(** X18.  The route GET /profile answers 200 only to a token that verifies
    and names a stored user, and then with the public data of the row the
    table holds for that user at the time of the request. *)
Theorem profile_route_sound (env : Env) (now : Z) (req : Request) (w : World)
    (r : Response) :
  fst (profile_route J pg_int env now req w) = Ok r ->
  status r = 200 ->
  exists token claims u,
    bearer (authorization req) = Some token
    /\ jwt_verify J token (JWT_SECRET env) now = Ok claims
    /\ find_id (userId (payload claims)) (db w) = Some u
    /\ r = mkResponse 200 true None None (Some (DataUser (toJSON u))).
Proof.
  unfold profile_route. run.
  destruct (authenticateToken_cases J pg_int env now req w)
    as [[_ E] | [[t [_ [_ E]]] | [[t [_ [_ [_ E]]]] | [t [c [Hb [Ht [Hv E]]]]]]]];
    rewrite E; cbn [handle fst]; unfold ret; cbn [fst];
    try (intros H; injection H as <-; discriminate).
  destruct (find_id (userId (payload c)) (db w)) as [u | ] eqn:Hu; cbn [handle];
    [ | intros H; injection H as <-; discriminate].
  unfold getProfile. run. cbn [with_user user fst].
  intros H _. injection H as <-. exists t, c, u. auto.
Qed.

End Profile.

(* ===================================================================== *)
(** ** Further properties: the table stays in order under deletion *)
(* ===================================================================== *)

Lemma NoDup_map_filter {A K : Type} (f : A -> K) (p : A -> bool) (l : list A) :
  NoDup (map f l) -> NoDup (map f (filter p l)).
Proof.
  induction l as [ | x l IH]; [intros _; constructor | ].
  cbn [map filter]. intros H. inversion H as [ | ? ? Hx Hl]; subst.
  destruct (p x); [ | exact (IH Hl)].
  cbn [map]. constructor; [ | exact (IH Hl)].
  intros Hin. apply Hx. apply in_map_iff in Hin. destruct Hin as [y [E Hy]].
  apply filter_In in Hy. destruct Hy as [Hy _]. rewrite <- E. apply in_map. exact Hy.
Qed.

Lemma Forall_filter {A : Type} (P : A -> Prop) (p : A -> bool) (l : list A) :
  Forall P l -> Forall P (filter p l).
Proof.
  rewrite !Forall_forall. intros H x Hx. apply filter_In in Hx. apply H, Hx.
Qed.

Section DeleteInvariant.

Variable pg_int : string -> option Z.

(** X19.  [deleteUser] keeps the table in order: distinct keys, usernames
    and emails, keys below the sequence, roles among the three. *)
Theorem deleteUser_keeps_table_ok (req : Request) (w : World) :
  table_ok w -> table_ok (snd (deleteUser pg_int req w)).
Proof.
  intros Hok. rewrite deleteUser_run.
  destruct (user req) as [me | ]; [ | exact Hok].
  destruct (JS.parseInt_is (params_userId req) (id me)); [exact Hok | ].
  destruct (pg_int (params_userId req)) as [n | ];
    [ | apply table_ok_same_rows; [exact Hok | lia]].
  destruct (find_id n (db w)) as [u | ];
    [ | apply table_ok_same_rows; [exact Hok | lia]].
  destruct Hok as [Hi Hb Hu He Hr]. constructor; cbn [snd db next_id].
  - apply NoDup_map_filter, Hi.
  - apply Forall_filter, Hb.
  - apply NoDup_map_filter, Hu.
  - apply NoDup_map_filter, He.
  - apply Forall_filter, Hr.
Qed.

End DeleteInvariant.

(* ===================================================================== *)
(** ** Further properties: the gates, the dashboard, createUser *)
(* ===================================================================== *)

Lemma requireRole_passes (allowed : list string) (req : Request) :
  requireRole allowed req = Next req
  <-> exists u, user req = Some u /\ In (role (attrs u)) allowed.
Proof.
  unfold requireRole. destruct (user req) as [u | ].
  - destruct (JS.includes allowed (role (attrs u))) eqn:Hi; cbn [negb].
    + split; [intros _; exists u; split; [reflexivity | apply includes_In, Hi]
             | reflexivity].
    + split; [discriminate | ]. intros [x [E H]]. injection E as <-.
      apply includes_In in H. rewrite H in Hi. discriminate.
  - split; [discriminate | ]. intros [x [E _]]. discriminate.
Qed.

(** X20.  A gate with more roles lets through whatever a gate with fewer
    does.  So the predefined gates are nested: whoever passes [requireAdmin]
    passes [requireDoctor], and whoever passes that passes [requirePatient];
    and [requirePatient] lets through every user whose role is one the model
    allows. *)
Theorem gates_nested (req : Request) :
  (forall allowed allowed',
     incl allowed allowed' ->
     requireRole allowed req = Next req -> requireRole allowed' req = Next req)
  /\ (requireAdmin req = Next req -> requireDoctor req = Next req)
  /\ (requireDoctor req = Next req -> requirePatient req = Next req)
  /\ (forall u, user req = Some u -> role_ok (role (attrs u)) = true ->
                requirePatient req = Next req).
Proof.
  assert (M : forall allowed allowed',
             incl allowed allowed' ->
             requireRole allowed req = Next req -> requireRole allowed' req = Next req).
  { intros a a' Hincl H. apply requireRole_passes in H. destruct H as [u [Hu Hin]].
    apply requireRole_passes. exists u. auto. }
  split; [exact M | split; [ | split]].
  - apply M. intros r [<- | []]. cbn [In]. auto.
  - apply M. intros r [<- | [<- | []]]; cbn [In]; auto.
  - intros u Hu Hr. apply requireRole_passes. exists u. split; [exact Hu | ].
    apply includes_In. exact Hr.
Qed.

(** The three counts never exceed the number of rows, and reach it exactly
    when every role is one of the three. *)
Lemma count_by_role (rows : list User) :
  count_role "admin" rows + count_role "doctor" rows + count_role "patient" rows
  <= Z.of_nat (List.length rows)
  /\ (Z.of_nat (List.length rows)
      = count_role "admin" rows + count_role "doctor" rows + count_role "patient" rows
      <-> Forall (fun u => role_ok (role (attrs u)) = true) rows).
Proof.
  unfold count_role. induction rows as [ | r rows [IHle IHiff]].
  - split; [cbn; lia | split; [constructor | reflexivity]].
  - cbn [filter]. unfold role_ok at 1, JS.includes. cbn [existsb].
    destruct (role (attrs r) =? "admin")%string eqn:Ea;
      destruct (role (attrs r) =? "doctor")%string eqn:Ed;
      destruct (role (attrs r) =? "patient")%string eqn:Ep;
      try (apply String.eqb_eq in Ea; apply String.eqb_eq in Ed;
           rewrite Ea in Ed; discriminate Ed);
      try (apply String.eqb_eq in Ea; apply String.eqb_eq in Ep;
           rewrite Ea in Ep; discriminate Ep);
      try (apply String.eqb_eq in Ed; apply String.eqb_eq in Ep;
           rewrite Ed in Ep; discriminate Ep);
      cbn [List.length]; (split; [lia | ]); split.
    all: try (intros H; constructor;
              [unfold role_ok, JS.includes; cbn [existsb]; rewrite Ea, Ep, Ed; reflexivity
              | apply IHiff; lia]).
    all: try (intros H; inversion H as [ | ? ? Hr Hrows]; subst;
              apply IHiff in Hrows; lia).
    + intros H. exfalso. lia.
    + intros H. inversion H as [ | ? ? Hr Hrows]; subst.
      unfold role_ok, JS.includes in Hr. cbn [existsb] in Hr.
      rewrite Ea, Ep, Ed in Hr. discriminate Hr.
Qed.

(** X21.  [getDashboard] answers 200 with the number of rows and the numbers
    of rows with the roles "admin", "doctor" and "patient", and changes
    nothing.  The three counts add up to the total exactly when every role
    in the table is one of these three; otherwise they fall short of it. *)
Theorem getDashboard_counts (req : Request) (w : World) :
  getDashboard req w
  = (Ok (mkAdminResponse 200 true (Some "Dashboard data retrieved successfully")
           (Some (Statistics (Z.of_nat (List.length (db w)))
                    (count_role "admin" (db w))
                    (count_role "doctor" (db w))
                    (count_role "patient" (db w))))), w)
  /\ count_role "admin" (db w) + count_role "doctor" (db w) + count_role "patient" (db w)
     <= Z.of_nat (List.length (db w))
  /\ (Z.of_nat (List.length (db w))
      = count_role "admin" (db w) + count_role "doctor" (db w)
        + count_role "patient" (db w)
      <-> Forall (fun u => role_ok (role (attrs u)) = true) (db w)).
Proof.
  split; [ | apply count_by_role].
  unfold getDashboard, User_count, count_role. run. cbn [filter].
  replace (filter (fun _ : User => true) (db w)) with (db w); [reflexivity | ].
  induction (db w) as [ | r rows IH]; [reflexivity | ]. cbn [filter]. now rewrite <- IH.
Qed.

Section CreateUser.

Variable B : BcryptLib.
Variable isEmail : string -> bool.
Variable entropy : nat -> Salt B.

(** [User.create], branch by branch. *)
Lemma User_create_run (a : Attrs) (w : World) :
  let called := (log w ++ [CallCreate])%list in
  let row := mkUser (next_id w)
               (stored a (bcrypt_hash B (password a) (entropy (draws w)))) in
  User_create B isEmail entropy a w
  = match validate isEmail a with
    | [] =>
        if username_taken (username a) (db w) then
          (Throw (SequelizeUniqueConstraintError
                    [mkItem "Username already exists" "username"]),
           mkWorld (db w) (next_id w + 1) (S (draws w)) called)
        else if email_taken (email a) (db w) then
          (Throw (SequelizeUniqueConstraintError
                    [mkItem "Email already exists" "email"]),
           mkWorld (db w) (next_id w + 1) (S (draws w)) called)
        else (Ok row, mkWorld (db w ++ [row]) (next_id w + 1) (S (draws w)) called)
    | items =>
        (Throw (SequelizeValidationError items),
         mkWorld (db w) (next_id w) (draws w) called)
    end.
Proof.
  cbv zeta. destruct (validate isEmail a) as [ | item items] eqn:Hv.
  - destruct (validate_nil _ _ Hv) as (_ & _ & Hp & _).
    rewrite (User_create_valid B isEmail entropy a w Hv (len_truthy 6 100 _ ltac:(lia) Hp)).
    unfold insert. cbn [username email db next_id draws log].
    destruct (username_taken (username a) (db w)); [reflexivity | ].
    destruct (email_taken (email a) (db w)); reflexivity.
  - unfold User_create. run. rewrite Hv. reflexivity.
Qed.

(** [createUser] once the role has passed. *)
Lemma createUser_run (req : Request) (w : World) (r : string) :
  b_role (body req) = Some r ->
  JS.includes ["doctor"; "patient"] r = true ->
  let called := (log w ++ [CallCreate])%list in
  createUser B isEmail entropy req w
  = match creation (body req) r with
    | Some a =>
        let row := mkUser (next_id w)
                     (stored a (bcrypt_hash B (password a) (entropy (draws w)))) in
        match validate isEmail a with
        | [] =>
            if (username_taken (username a) (db w) || email_taken (email a) (db w))%bool
            then (Ok (admin_failure 500 "Internal server error"),
                  mkWorld (db w) (next_id w + 1) (S (draws w)) called)
            else (Ok (mkAdminResponse 201 true (Some "User created successfully")
                        (Some (Created (toJSON row)))),
                  mkWorld (db w ++ [row]) (next_id w + 1) (S (draws w)) called)
        | _ => (Ok (admin_failure 500 "Internal server error"),
                mkWorld (db w) (next_id w) (draws w) called)
        end
    | None => (Ok (admin_failure 500 "Internal server error"),
               mkWorld (db w) (next_id w) (draws w) called)
    end.
Proof.
  intros Hr Hin. cbv zeta. unfold createUser, creation. run. rewrite Hr, Hin. cbn [negb].
  unfold User_create_fields.
  destruct (b_username (body req)) as [u | ]; [ | reflexivity].
  destruct (b_email (body req)) as [e | ]; [ | reflexivity].
  destruct (b_password (body req)) as [p | ]; [ | reflexivity].
  rewrite User_create_run. cbn [username email password].
  destruct (validate isEmail (mkAttrs u e p r)); [ | reflexivity].
  destruct (username_taken u (db w)); [reflexivity | ].
  destruct (email_taken e (db w)); reflexivity.
Qed.

(** The gate of [createUser]: no role, or a role other than "doctor" and
    "patient". *)
Lemma createUser_gate (req : Request) (w : World) :
  (forall r, b_role (body req) = Some r -> JS.includes ["doctor"; "patient"] r = false) ->
  createUser B isEmail entropy req w
  = (Ok (admin_failure 400 "Role must be either doctor or patient"), w).
Proof.
  intros H. unfold createUser. run. destruct (b_role (body req)) as [r | ];
    [ | reflexivity].
  rewrite (H r eq_refl). reflexivity.
Qed.

(** X22.  [createUser] never makes an admin: whatever the request, either
    the table is as it was, or it has one more row, answered 201, and the
    role of that row is "doctor" or "patient". *)
Theorem createUser_adds_no_admin (req : Request) (w : World) :
  db (snd (createUser B isEmail entropy req w)) = db w
  \/ exists row,
       db (snd (createUser B isEmail entropy req w)) = (db w ++ [row])%list
       /\ In (role (attrs row)) ["doctor"; "patient"]
       /\ fst (createUser B isEmail entropy req w)
          = Ok (mkAdminResponse 201 true (Some "User created successfully")
                  (Some (Created (toJSON row)))).
Proof.
  destruct (b_role (body req)) as [r | ] eqn:Hr;
    [ | left; rewrite createUser_gate; [reflexivity | intros r E; congruence]].
  destruct (JS.includes ["doctor"; "patient"] r) eqn:Hin;
    [ | left; rewrite createUser_gate; [reflexivity | intros r' E; congruence]].
  rewrite (createUser_run req w r Hr Hin).
  destruct (creation (body req) r) as [a | ] eqn:Hc; [ | left; reflexivity].
  cbv zeta. destruct (validate isEmail a); [ | left; reflexivity].
  destruct (username_taken (username a) (db w) || email_taken (email a) (db w))%bool;
    [left; reflexivity | ].
  right. eexists. split; [reflexivity | split; [ | reflexivity]].
  cbn [attrs stored role]. apply includes_In.
  unfold creation in Hc.
  destruct (b_username (body req)), (b_email (body req)), (b_password (body req));
    try discriminate. injection Hc as <-. exact Hin.
Qed.

(** X23.  The answers of [createUser].  With no role, or a role other than
    "doctor" and "patient" ("admin" included), it answers 400 without
    calling the store.  Otherwise it answers 201 when the creation goes
    through, and 500 "Internal server error" when it does not: an absent
    field, a value the validators reject and a username or email already
    taken are all reported that way, and leave the table as it was. *)
Theorem createUser_answers (req : Request) (w : World) :
  ((forall r, b_role (body req) = Some r -> JS.includes ["doctor"; "patient"] r = false) ->
   createUser B isEmail entropy req w
   = (Ok (admin_failure 400 "Role must be either doctor or patient"), w))
  /\ (forall r,
        b_role (body req) = Some r ->
        JS.includes ["doctor"; "patient"] r = true ->
        (creation_fails isEmail (body req) r (db w) = true ->
         fst (createUser B isEmail entropy req w)
         = Ok (admin_failure 500 "Internal server error")
         /\ db (snd (createUser B isEmail entropy req w)) = db w)
        /\ (creation_fails isEmail (body req) r (db w) = false ->
            exists row,
              fst (createUser B isEmail entropy req w)
              = Ok (mkAdminResponse 201 true (Some "User created successfully")
                      (Some (Created (toJSON row))))
              /\ id row = next_id w
              /\ db (snd (createUser B isEmail entropy req w)) = (db w ++ [row])%list)).
Proof.
  split; [apply createUser_gate | ].
  intros r Hr Hin. rewrite (createUser_run req w r Hr Hin). unfold creation_fails.
  destruct (creation (body req) r) as [a | ]; cbv zeta.
  - destruct (validate isEmail a).
    + cbn [orb]. destruct (username_taken (username a) (db w)
                           || email_taken (email a) (db w))%bool.
      * split; [intros _; split; reflexivity | discriminate].
      * split; [discriminate | ]. intros _. eexists.
        split; [reflexivity | split; reflexivity].
    + split; [intros _; split; reflexivity | discriminate].
  - split; [intros _; split; reflexivity | discriminate].
Qed.

(** X24.  [createUser] keeps the table in order. *)
Theorem createUser_keeps_table_ok (req : Request) (w : World) :
  table_ok w -> table_ok (snd (createUser B isEmail entropy req w)).
Proof.
  intros Hok.
  destruct (b_role (body req)) as [r | ] eqn:Hr;
    [ | rewrite createUser_gate; [exact Hok | intros r E; congruence]].
  destruct (JS.includes ["doctor"; "patient"] r) eqn:Hin;
    [ | rewrite createUser_gate; [exact Hok | intros r' E; congruence]].
  rewrite (createUser_run req w r Hr Hin).
  destruct (creation (body req) r) as [a | ];
    [ | apply table_ok_same_rows; [exact Hok | lia]].
  cbv zeta. destruct (validate isEmail a) as [ | item items] eqn:Hv;
    [ | apply table_ok_same_rows; [exact Hok | lia]].
  destruct (validate_nil _ _ Hv) as (_ & _ & _ & Hrole).
  destruct (username_taken (username a) (db w)) eqn:Hfu;
    [apply table_ok_same_rows; [exact Hok | lia] | ].
  destruct (email_taken (email a) (db w)) eqn:Hfe;
    [apply table_ok_same_rows; [exact Hok | lia] | ].
  cbn [orb snd]. apply table_ok_insert; assumption.
Qed.

End CreateUser.

(* ===================================================================== *)
(** ** Runs of the further properties on the reference table *)
(* ===================================================================== *)

Lemma world0_ok : table_ok Ref.world0.
Proof.
  constructor; cbn [Ref.world0 db next_id map].
  - repeat constructor; cbn; intuition discriminate.
  - repeat constructor; cbn; lia.
  - repeat constructor; cbn; intuition discriminate.
  - repeat constructor; cbn; intuition discriminate.
  - repeat constructor.
Qed.

(** Run of [register_validation_failure]: a username of two letters and a
    role the model does not know. *)
Lemma register_validation_failure_witness :
  Ref.register Ref.env 100
    (RefMore.with_body (mkBody (Some "bo") (Some "bo@x.com") (Some "secret1") (Some "nurse")))
    Ref.world0
  = (Ok (mkResponse 400 false (Some "Validation failed")
           (Some ["Username must be between 3 and 50 characters";
                  "Role must be admin, patient, or doctor"]) None),
     mkWorld (db Ref.world0) 3 0 [CallCreate]).
Proof.
  apply (register_validation_failure Ref.bcrypt Ref.jwt Ref.isEmail Ref.entropy
           Ref.env 100
           (RefMore.with_body
              (mkBody (Some "bo") (Some "bo@x.com") (Some "secret1") (Some "nurse")))
           Ref.world0); try reflexivity.
  discriminate.
Defined.



(** Run of [register_then_login]: bob registers and logs in. *)
Lemma register_then_login_witness :
  exists created token token',
    fst (Ref.register Ref.env 100
           (RefMore.with_body
              (mkBody (Some "bob") (Some "bob@x.com") (Some "secret1") None))
           Ref.world0)
    = Ok (mkResponse 201 true (Some "User registered successfully") None
            (Some (DataUserToken (toJSON created) token)))
    /\ fst (Ref.login Ref.env 200
              (RefMore.with_body (mkBody None (Some "bob@x.com") (Some "secret1") None))
              (snd (Ref.register Ref.env 100
                      (RefMore.with_body
                         (mkBody (Some "bob") (Some "bob@x.com") (Some "secret1") None))
                      Ref.world0)))
       = Ok (mkResponse 200 true (Some "Login successful") None
               (Some (DataUserToken (toJSON created) token'))).
Proof.
  apply (register_then_login Ref.bcrypt Ref.jwt Ref.isEmail Ref.entropy
           RefFacts.bcrypt_spec Ref.env 100 200 604800
           (RefMore.with_body
              (mkBody (Some "bob") (Some "bob@x.com") (Some "secret1") None))
           (RefMore.with_body (mkBody None (Some "bob@x.com") (Some "secret1") None))
           Ref.world0); reflexivity.
Defined.

(** Run of [register_keeps_table_ok]: the table after bob registered. *)
Lemma register_keeps_table_ok_witness :
  table_ok (snd (Ref.register Ref.env 100
                   (RefMore.with_body
                      (mkBody (Some "bob") (Some "bob@x.com") (Some "secret1") None))
                   Ref.world0)).
Proof.
  apply (register_keeps_table_ok Ref.bcrypt Ref.jwt Ref.isEmail Ref.entropy Ref.env 100
           (RefMore.with_body
              (mkBody (Some "bob") (Some "bob@x.com") (Some "secret1") None))
           Ref.world0 world0_ok).
Defined.

(** Run of [login_sound]: alice logs in. *)
Lemma login_sound_witness :
  exists u token,
    find (fun x => (email (attrs x) =? "alice@x.com")%string) (db Ref.world0) = Some u
    /\ validatePassword Ref.bcrypt u "secret1" = true
    /\ generateToken Ref.jwt Ref.env 100 u = Ok token
    /\ mkResponse 200 true (Some "Login successful") None
         (Some (DataUserToken (toJSON Ref.alice) Ref.alice_token))
       = mkResponse 200 true (Some "Login successful") None
           (Some (DataUserToken (toJSON u) token)).
Proof.
  apply (login_sound Ref.bcrypt Ref.jwt Ref.env 100
           (RefMore.with_body (mkBody None (Some "alice@x.com") (Some "secret1") None))
           Ref.world0
           (mkResponse 200 true (Some "Login successful") None
              (Some (DataUserToken (toJSON Ref.alice) Ref.alice_token))));
    reflexivity.
Defined.

(** Run of [login_token_authenticates]: alice logs in and presents the
    token a second later. *)
Lemma login_token_authenticates_witness :
  exists token,
    fst (Ref.login Ref.env 100
           (RefMore.with_body (mkBody None (Some "alice@x.com") (Some "secret1") None))
           Ref.world0)
    = Ok (mkResponse 200 true (Some "Login successful") None
            (Some (DataUserToken (toJSON Ref.alice) token)))
    /\ (no_space token = true ->
        JS.truthy (Some token) = true ->
        fst (Ref.authenticateToken Ref.env 101
               (with_header (RefMore.with_body Ref.no_body) ("Bearer " ++ token))
               (snd (Ref.login Ref.env 100
                       (RefMore.with_body
                          (mkBody None (Some "alice@x.com") (Some "secret1") None))
                       Ref.world0)))
        = Ok (Next (with_user
                      (with_header (RefMore.with_body Ref.no_body) ("Bearer " ++ token))
                      Ref.alice))).
Proof.
  apply (login_token_authenticates Ref.bcrypt Ref.jwt Ref.pg_int RefFacts.jwt_spec
           Ref.env 100 101 604800
           (RefMore.with_body (mkBody None (Some "alice@x.com") (Some "secret1") None))
           (RefMore.with_body Ref.no_body) Ref.world0 Ref.alice world0_ok);
    reflexivity.
Defined.

(** Run of [profile_route_sound]: alice asks for her profile. *)
Lemma profile_route_sound_witness :
  exists token claims u,
    bearer (authorization (Ref.with_token Ref.alice_token)) = Some token
    /\ jwt_verify Ref.jwt token (JWT_SECRET Ref.env) 101 = Ok claims
    /\ find_id (userId (payload claims)) (db Ref.world0) = Some u
    /\ mkResponse 200 true None None (Some (DataUser (toJSON Ref.alice)))
       = mkResponse 200 true None None (Some (DataUser (toJSON u))).
Proof.
  apply (profile_route_sound Ref.jwt Ref.pg_int Ref.env 101
           (Ref.with_token Ref.alice_token) Ref.world0
           (mkResponse 200 true None None (Some (DataUser (toJSON Ref.alice)))));
    reflexivity.
Defined.

(** Run of [deleteUser_keeps_table_ok]: the table after root deleted alice. *)
Lemma deleteUser_keeps_table_ok_witness :
  table_ok (snd (Ref.deleteUser (RefMore.about "1" Ref.root) Ref.world0)).
Proof.
  apply (deleteUser_keeps_table_ok Ref.pg_int (RefMore.about "1" Ref.root) Ref.world0
           world0_ok).
Defined.

(** Run of [gates_nested]: root passes the three predefined gates. *)
Lemma gates_nested_witness :
  requireDoctor (RefMore.about "" Ref.root) = Next (RefMore.about "" Ref.root)
  /\ requirePatient (RefMore.about "" Ref.root) = Next (RefMore.about "" Ref.root).
Proof.
  split.
  - apply (proj1 (proj2 (gates_nested (RefMore.about "" Ref.root)))). reflexivity.
  - apply (proj2 (proj2 (proj2 (gates_nested (RefMore.about "" Ref.root)))) Ref.root);
      reflexivity.
Defined.

(** Run of [createUser_answers]: a request for an admin account, and one for
    a doctor under alice's email. *)
Lemma createUser_answers_witness :
  RefMore.createUser
    (RefMore.with_body (mkBody (Some "eve") (Some "eve@x.com") (Some "secret1")
                          (Some "admin")))
    Ref.world0
  = (Ok (admin_failure 400 "Role must be either doctor or patient"), Ref.world0)
  /\ fst (RefMore.createUser
            (RefMore.with_body (mkBody (Some "eve") (Some "alice@x.com") (Some "secret1")
                                  (Some "doctor")))
            Ref.world0)
     = Ok (admin_failure 500 "Internal server error").
Proof.
  split.
  - apply (proj1 (createUser_answers Ref.bcrypt Ref.isEmail Ref.entropy
                    (RefMore.with_body
                       (mkBody (Some "eve") (Some "eve@x.com") (Some "secret1")
                          (Some "admin")))
                    Ref.world0)).
    intros r H. injection H as <-. reflexivity.
  - apply (proj1 (proj2 (createUser_answers Ref.bcrypt Ref.isEmail Ref.entropy
                           (RefMore.with_body
                              (mkBody (Some "eve") (Some "alice@x.com") (Some "secret1")
                                 (Some "doctor")))
                           Ref.world0)
                   "doctor" eq_refl eq_refl)).
    reflexivity.
Defined.

(** Run of [createUser_keeps_table_ok]: the table after a doctor was
    created. *)
Lemma createUser_keeps_table_ok_witness :
  table_ok (snd (RefMore.createUser
                   (RefMore.with_body
                      (mkBody (Some "eve") (Some "eve@x.com") (Some "secret1")
                         (Some "doctor")))
                   Ref.world0)).
Proof.
  apply (createUser_keeps_table_ok Ref.bcrypt Ref.isEmail Ref.entropy
           (RefMore.with_body
              (mkBody (Some "eve") (Some "eve@x.com") (Some "secret1") (Some "doctor")))
           Ref.world0 world0_ok).
Defined.

(* ===================================================================== *)
(** ** Further properties: what is written, who gets through, how long *)
(* ===================================================================== *)

Section Written.

Variable B : BcryptLib.
Variable J : JwtLib.
Variable isEmail : string -> bool.
Variable pg_int : string -> option Z.
Variable entropy : nat -> Salt B.

Lemma hashed_same_rows (w : World) (k : Z) (n : nat) (l : list OrmCall) :
  passwords_hashed B w -> passwords_hashed B (mkWorld (db w) k n l).
Proof.
  intros H. exact H.
Qed.

Lemma hashed_insert (w : World) (a : Attrs) (salt : Salt B) (k : Z) (n : nat)
    (l : list OrmCall) :
  passwords_hashed B w ->
  passwords_hashed B
    (mkWorld (db w ++ [mkUser (next_id w) (stored a (bcrypt_hash B (password a) salt))])
             k n l).
Proof.
  intros H. unfold passwords_hashed. cbn [db]. apply Forall_app. split; [exact H | ].
  constructor; [ | constructor]. exists (password a), salt. reflexivity.
Qed.

(** X25.  No handler writes a password as it came: if every password in
    the table is a hash made by the library, it is so after [register], after
    [createUser] and after [deleteUser], whatever the request. *)
Theorem writes_keep_passwords_hashed (env : Env) (now : Z) (req : Request) (w : World) :
  passwords_hashed B w ->
  passwords_hashed B (snd (register B J isEmail entropy env now req w))
  /\ passwords_hashed B (snd (createUser B isEmail entropy req w))
  /\ passwords_hashed B (snd (deleteUser pg_int req w)).
Proof.
  intros H. split; [ | split].
  - destruct (JS.truthy (b_username (body req)) && JS.truthy (b_email (body req))
              && JS.truthy (b_password (body req)))%bool eqn:E.
    + apply andb_prop in E. destruct E as [E Hp]. apply andb_prop in E.
      destruct E as [Hu He].
      rewrite (register_run B J isEmail entropy env now req w Hu He Hp).
      destruct (validate isEmail (registration (body req))); [ | exact H].
      destruct (username_taken _ (db w)); [exact H | ].
      destruct (email_taken _ (db w)); [exact H | ].
      cbn [snd]. apply hashed_insert, H.
    + rewrite (register_missing B J isEmail entropy env now req w E). exact H.
  - destruct (b_role (body req)) as [r | ] eqn:Hr;
      [ | rewrite createUser_gate; [exact H | intros r E; congruence]].
    destruct (JS.includes ["doctor"; "patient"] r) eqn:Hin;
      [ | rewrite createUser_gate; [exact H | intros r' E; congruence]].
    rewrite (createUser_run B isEmail entropy req w r Hr Hin).
    destruct (creation (body req) r) as [a | ]; [ | exact H].
    cbv zeta. destruct (validate isEmail a); [ | exact H].
    destruct (username_taken (username a) (db w) || email_taken (email a) (db w))%bool;
      [exact H | ].
    cbn [snd]. apply hashed_insert, H.
  - rewrite deleteUser_run.
    destruct (user req) as [me | ]; [ | exact H].
    destruct (JS.parseInt_is (params_userId req) (id me)); [exact H | ].
    destruct (pg_int (params_userId req)) as [n | ]; [ | exact H].
    destruct (find_id n (db w)) as [u | ]; [ | exact H].
    unfold passwords_hashed. cbn [snd db]. apply Forall_filter, H.
Qed.

(** X26.  Behind a gate, a handler runs only on a request whose token
    verified, with as [req.user] the row the table holds for the token's
    identifier, and only if the role of that row is one the gate allows. *)
Theorem guarded_sound (env : Env) (now : Z) (req req' : Request) (w : World)
    (allowed : list string) :
  fst (guarded J pg_int (requireRole allowed) env now req w) = Ok (Next req') ->
  exists token claims u,
    bearer (authorization req) = Some token
    /\ jwt_verify J token (JWT_SECRET env) now = Ok claims
    /\ find_id (userId (payload claims)) (db w) = Some u
    /\ In (role (attrs u)) allowed
    /\ req' = with_user req u.
Proof.
  unfold guarded. run.
  destruct (authenticateToken_cases J pg_int env now req w)
    as [[_ E] | [[t [_ [_ E]]] | [[t [_ [_ [_ E]]]] | [t [c [Hb [Ht [Hv E]]]]]]]];
    rewrite E; cbn [fst]; try discriminate.
  destruct (find_id (userId (payload c)) (db w)) as [u | ] eqn:Hu; [ | discriminate].
  cbn [fst]. intros H. injection H as H.
  assert (P : requireRole allowed (with_user req u) = Next (with_user req u)).
  { unfold requireRole in H |- *. cbn [with_user user] in H |- *.
    destruct (JS.includes allowed (role (attrs u))); cbn [negb] in H |- *;
      [reflexivity | discriminate]. }
  rewrite P in H. injection H as <-.
  apply requireRole_passes in P. destruct P as [u' [E' Hin]].
  cbn [with_user user] in E'. injection E' as <-.
  exists t, c, u. auto 10.
Qed.

Hypothesis J_ok : JwtSpec J.

Lemma or_default_falsy (v : JS.Field) (d : string) :
  JS.truthy v = false -> JS.or_default v d = d.
Proof.
  destruct v as [s | ]; [ | reflexivity]. cbn [JS.truthy JS.or_default].
  destruct (s =? "")%string; [reflexivity | discriminate].
Qed.

(** X27.  With [JWT_EXPIRES_IN] unset or empty, a token lives seven days to
    the second: issued at [t0], it verifies at every time before
    [t0 + 604800] and is rejected as expired at that time and at every time
    after it. *)
Theorem default_lifetime_is_seven_days (env : Env) (t0 now : Z) (u : User) :
  JS.truthy (JWT_SECRET env) = true ->
  JS.truthy (JWT_EXPIRES_IN env) = false ->
  exists token,
    generateToken J env t0 u = Ok token
    /\ jwt_verify J token (JWT_SECRET env) now
       = if now <? t0 + 604800
         then Ok (mkClaims (mkPayload (id u) (email (attrs u)) (role (attrs u)))
                           t0 (Some (t0 + 604800)))
         else Throw TokenExpiredError.
Proof.
  intros Hs He. unfold generateToken, jwt_sign.
  rewrite Hs, (or_default_falsy _ _ He), (timespan_7d J J_ok).
  eexists. split; [reflexivity | ].
  unfold jwt_verify.
  rewrite (decode_encode J J_ok), Hs, (sig_valid_encode J J_ok). cbn [exp].
  destruct (Z.leb_spec (t0 + 604800) now), (Z.ltb_spec now (t0 + 604800));
    try reflexivity; lia.
Qed.

End Written.

(** Run of [writes_keep_passwords_hashed] on the reference table. *)
Lemma writes_keep_passwords_hashed_witness :
  passwords_hashed Ref.bcrypt
    (snd (Ref.register Ref.env 100
            (RefMore.with_body
               (mkBody (Some "bob") (Some "bob@x.com") (Some "secret1") None))
            Ref.world0)).
Proof.
  apply (writes_keep_passwords_hashed Ref.bcrypt Ref.jwt Ref.isEmail Ref.pg_int
           Ref.entropy Ref.env 100
           (RefMore.with_body
              (mkBody (Some "bob") (Some "bob@x.com") (Some "secret1") None))
           Ref.world0).
  repeat constructor.
  - exists "secret1", 7%positive. reflexivity.
  - exists "hunter22", 9%positive. reflexivity.
Defined.

(** Run of [guarded_sound]: root behind the admin gate. *)
Lemma guarded_sound_witness :
  exists token claims u,
    bearer (authorization (Ref.with_token Ref.root_token)) = Some token
    /\ jwt_verify Ref.jwt token (JWT_SECRET Ref.env) 101 = Ok claims
    /\ find_id (userId (payload claims)) (db Ref.world0) = Some u
    /\ In (role (attrs u)) ["admin"]
    /\ with_user (Ref.with_token Ref.root_token) Ref.root
       = with_user (Ref.with_token Ref.root_token) u.
Proof.
  apply (guarded_sound Ref.jwt Ref.pg_int Ref.env 101 (Ref.with_token Ref.root_token)
           (with_user (Ref.with_token Ref.root_token) Ref.root) Ref.world0 ["admin"]).
  reflexivity.
Defined.

(** Run of [default_lifetime_is_seven_days]: alice's token at the last
    second of its life. *)
Lemma default_lifetime_is_seven_days_witness :
  exists token,
    generateToken Ref.jwt Ref.env 100 Ref.alice = Ok token
    /\ jwt_verify Ref.jwt token (JWT_SECRET Ref.env) 604899
       = if 604899 <? 100 + 604800
         then Ok (mkClaims (mkPayload 1 "alice@x.com" "patient") 100 (Some (100 + 604800)))
         else Throw TokenExpiredError.
Proof.
  apply (default_lifetime_is_seven_days Ref.jwt RefFacts.jwt_spec Ref.env 100 604899
           Ref.alice); reflexivity.
Defined.

(* ===================================================================== *)
(** ** The self-deletion guard, where it does not fire *)
(* ===================================================================== *)

Section SelfDeletion.

Variable pg_int : string -> option Z.

(** C1.  The guard of [deleteUser] compares [parseInt(userId)] with the
    admin's key, and the lookup that follows hands the parameter itself to
    the database.  Where the two read the parameter differently, an admin
    who names the own key is not rejected: the guard lets the request
    through, the lookup finds the admin's row, and the row is destroyed with
    the answer 200 "User deleted successfully". *)
Theorem deleteUser_deletes_own_row (req : Request) (w : World) (me : User) :
  user req = Some me ->
  find_id (id me) (db w) = Some me ->
  pg_int (params_userId req) = Some (id me) ->
  JS.parseInt (params_userId req) <> Some (id me) ->
  fst (deleteUser pg_int req w)
  = Ok (mkResponse 200 true (Some "User deleted successfully") None None)
  /\ find_id (id me) (db (snd (deleteUser pg_int req w))) = None.
Proof.
  intros Hme Hrow Hpg Hjs.
  assert (Hself : JS.parseInt_is (params_userId req) (id me) = false).
  { unfold JS.parseInt_is. destruct (JS.parseInt (params_userId req)) as [v | ];
      [ | reflexivity].
    destruct (v =? id me) eqn:E; [ | reflexivity].
    apply Z.eqb_eq in E. subst v. now contradiction Hjs. }
  rewrite deleteUser_run, Hme, Hself, Hpg, Hrow. cbn [fst snd db].
  split; [reflexivity | apply find_id_removed].
Qed.

End SelfDeletion.

(** Run of [deleteUser_deletes_own_row]: admin 2 asks to delete user "0b10",
    which [parseInt] reads as 0 and the database as 2. *)
Lemma deleteUser_deletes_own_row_witness :
  JS.parseInt "0b10" = Some 0
  /\ RefJson.pg16_int "0b10" = Some 2
  /\ fst (deleteUser RefJson.pg16_int (RefMore.about "0b10" Ref.root) Ref.world0)
     = Ok (mkResponse 200 true (Some "User deleted successfully") None None)
  /\ find_id 2 (db (snd (deleteUser RefJson.pg16_int (RefMore.about "0b10" Ref.root)
                           Ref.world0)))
     = None.
Proof.
  split; [reflexivity | split; [reflexivity | ]].
  apply (deleteUser_deletes_own_row RefJson.pg16_int (RefMore.about "0b10" Ref.root)
           Ref.world0 Ref.root); try reflexivity.
  discriminate.
Defined.

(* ===================================================================== *)
(** ** Tokens that were not issued *)
(* ===================================================================== *)

(** C3 as stated fails: a token whose expiry has passed but whose signature
    is not the server's is answered "Invalid token", not "Token expired". *)
Lemma forged_expired_token_is_invalid :
  past_expiry Ref.jwt RefJson.forged_token 604900 = true
  /\ well_signed Ref.jwt RefJson.forged_token (JWT_SECRET Ref.env) = false
  /\ Ref.authenticateToken Ref.env 604900 (Ref.with_token RefJson.forged_token)
       Ref.world0
     = (Ok (Respond (failure 401 "Invalid token")), Ref.world0)
  /\ failure 401 "Invalid token" <> failure 401 "Token expired".
Proof.
  split; [reflexivity | split; [reflexivity | split; [reflexivity | discriminate]]].
Qed.

(* ===================================================================== *)
(** ** Login over JSON values *)
(* ===================================================================== *)

Section JsonLogin.

Variable B : BcryptLib.
Variable J : JwtLib.
Variable where_email : Json.Value -> list User -> Res (option User).

(** On bodies of strings the handler over JSON values is [login] above. *)
Lemma json_login_on_strings (env : Env) (now : Z) (req : Request) (w : World) :
  Json.login B J where_email env now
    (Json.mkLoginBody (Json.of_field (b_email (body req)))
                      (Json.of_field (b_password (body req)))) w
  = login B J env now req w.
Proof.
  unfold Json.login, login. run. cbn [Json.j_email Json.j_password].
  destruct (b_email (body req)) as [e | ]; [ | reflexivity].
  destruct (b_password (body req)) as [p | ];
    cbn [Json.of_field Json.truthy JS.truthy];
    [ | destruct (e =? "")%string; reflexivity].
  destruct (e =? "")%string eqn:Ee; [reflexivity | ].
  destruct (p =? "")%string eqn:Ep; [reflexivity | ].
  cbn [negb orb Json.findOne JS.or_default]. rewrite Ee, Ep.
  unfold User_findOne. run. cbn [db].
  destruct (find (fun u => (email (attrs u) =? e)%string) (db w)) as [u | ];
    [ | reflexivity].
  unfold validatePassword. cbn [Json.validatePassword].
  destruct (bcrypt_compare B p (password (attrs u))); reflexivity.
Qed.

(** The lookup [login] makes, and nothing else of [findOne]. *)
Lemma json_findOne_result (e : Json.Value) (w : World) :
  fst (Json.findOne where_email e w) = Json.lookup where_email e (db w).
Proof.
  destruct e; try reflexivity.
Qed.


(** With a password that is truthy and not a string, a login for the email
    of a stored user is answered 500: the comparison throws, and the handler
    catches. *)
Lemma login_password_not_a_string (env : Env) (now : Z) (b : Json.LoginBody)
    (w : World) (u : User) :
  Json.truthy (Json.j_email b) = true ->
  Json.truthy (Json.j_password b) = true ->
  (forall s, Json.j_password b <> Json.Str s) ->
  Json.lookup where_email (Json.j_email b) (db w) = Ok (Some u) ->
  fst (Json.login B J where_email env now b w) = Ok internal_error.
Proof.
  intros E P Hns Hfound.
  unfold Json.login. run. rewrite E, P. cbn [negb orb].
  replace (Json.findOne where_email (Json.j_email b) w)
    with (Json.lookup where_email (Json.j_email b) (db w),
          snd (Json.findOne where_email (Json.j_email b) w))
    by (rewrite <- json_findOne_result; now destruct (Json.findOne _ _ w)).
  rewrite Hfound. cbn beta iota.
  destruct (Json.j_password b) as [ | | x | n | s | ]; try reflexivity.
  now contradiction (Hns s).
Qed.

End JsonLogin.


